(** * Build pipeline of model loaders: resolution, validation, compilation

    A shallow embedding of the loader-building code of the repository
    (dataclass_factory_30 and its successor package adaptix):

    - [HighLevelUtils]    high_level/utils.py          (resolve_classmethod)
    - [NativeMsgspec]     integrations/msgspec/native.py
    - [ResolutionCore]    tests_helpers.py (TestRetort, PlaceholderProvider)
    - [ModelLoader]       provider/model/loader_provider.py

    Python exceptions are values of [exn]; a call that may raise returns
    [result A]; code that talks to the mediator or mutates shared objects
    runs in the state-and-error monad [M] of [ModelLoader]. *)

From Stdlib Require Import String List Bool ZArith.
From stdpp Require Import base option list gmap strings.
Import ListNotations.

Local Open Scope string_scope.
#[local] Set Warnings "-clear-no-such-hyp".

(** ** Exceptions and results *)

(** An f-string is kept as its pieces: literal text and the formatted
    list of names, so that no theorem depends on how Python's [repr]
    quotes a string. *)
Inductive Fragment : Type :=
| Text (s : string)
| Names (l : list string).

Definition Message : Type := list Fragment.

Inductive exn : Type :=
| CannotProvide
| NoSuitableProvider (msg : string)
| ValueError (msg : Message)
| RecursionError
| ValidationError (msg : string)
| LoadError (cause : exn)
| OtherError (cls : string).

Inductive result (A : Type) : Type :=
| Ok (a : A)
| Raise (e : exn).
Arguments Ok {A} a.
Arguments Raise {A} e.

Definition is_ok {A} (r : result A) : bool :=
  match r with Ok _ => true | Raise _ => false end.

(** ** high_level/utils.py *)

Module HighLevelUtils.

(** The Python objects [resolve_classmethod] can tell apart: what
    [isinstance] answers for [MethodType], [BuiltinMethodType] and
    [type], and the [__self__] of a bound method. *)
Inductive PyObject : Type :=
| PyNone
| PyModule (name : string)
| PyClass (name : string)
| PyAlias (origin : PyObject) (args : string)
| PyInstance (cls : PyObject)
| PyFunction (name : string)
| PyMethod (func : string) (self : PyObject)
| PyBuiltinMethod (name : string) (self : PyObject).

(** [isinstance(func, (MethodType, BuiltinMethodType))] together with
    [func.__self__]. *)
Definition method_self (func : PyObject) : option PyObject :=
  match func with
  | PyMethod _ bound => Some bound
  | PyBuiltinMethod _ bound => Some bound
  | _ => None
  end.

(** [isinstance(bound, type)] *)
Definition is_type (o : PyObject) : bool :=
  match o with PyClass _ => true | _ => false end.

Definition expects_classmethod : Message :=
  [Text "as_constructor() with one argument expects classmethod"].
Definition does_not_support_generic : Message :=
  [Text "as_constructor() with one argument does not support generic"].

Section Resolve.
(** [type_tools.is_user_defined_generic] is not among the sources;
    only its tests are (tests_30/type_tools/test_utils.py). *)
Variable is_user_defined_generic : PyObject -> bool.

Definition resolve_classmethod (func : PyObject)
  : result (PyObject * PyObject) :=
  match method_self func with
  | None => Raise (ValueError expects_classmethod)
  | Some bound =>
      if negb (is_type bound) then
        Raise (ValueError expects_classmethod)
      else if is_user_defined_generic bound then
        Raise (ValueError does_not_support_generic)
      else Ok (bound, func)
  end.

(** The three rejected shapes of argument, as the claim lists them. *)
Definition rejected (func : PyObject) : Prop :=
  method_self func = None
  \/ (exists bound, method_self func = Some bound /\ is_type bound = false)
  \/ (exists bound, method_self func = Some bound
                    /\ is_user_defined_generic bound = true).

(** C10: [resolve_classmethod] raises ValueError exactly on the
    arguments that are not bound (builtin) methods, whose bound object
    is not a type, or whose bound class is a user-defined generic; on
    every other argument it returns the pair of the bound object and
    the argument itself. *)
Theorem resolve_classmethod_spec (func : PyObject) :
  (rejected func ->
     exists msg, resolve_classmethod func = Raise (ValueError msg))
  /\ (~ rejected func ->
     exists bound, method_self func = Some bound
                   /\ resolve_classmethod func = Ok (bound, func)).
Proof.
  unfold rejected, resolve_classmethod. split.
  - intros [H|[(b & Hb & H)|(b & Hb & H)]].
    + rewrite H. eauto.
    + rewrite Hb, H. simpl. eauto.
    + rewrite Hb, H. destruct (is_type b); simpl; eauto.
  - intros Hn. destruct (method_self func) as [bound|] eqn:E.
    + exists bound. split; [done|].
      destruct (is_type bound) eqn:T; simpl.
      * destruct (is_user_defined_generic bound) eqn:G; [|done].
        exfalso. apply Hn. right. right. eauto.
      * exfalso. apply Hn. right. left. eauto.
    + exfalso. apply Hn. by left.
Qed.
(** The outcome tells the caller what was wrong: the message about
    generics is raised only for a method bound to a class that is a
    user-defined generic; everything that is not a method bound to a
    class gets the message about classmethods, and for it
    [is_user_defined_generic] is not consulted. *)
Definition bound_to_class (func : PyObject) : option PyObject :=
  match method_self func with
  | Some bound => if is_type bound then Some bound else None
  | None => None
  end.

(** X1: [resolve_classmethod] has exactly three outcomes, each decided
    by the argument: the pair when it is a method bound to a class that
    is not a user-defined generic; the generics message when the class
    is one; the classmethod message when it is not a method bound to a
    class, whatever [is_user_defined_generic] would say of its
    [__self__]. *)
Theorem resolve_classmethod_outcomes (func : PyObject) :
  (forall cls f,
      resolve_classmethod func = Ok (cls, f)
      <-> f = func /\ bound_to_class func = Some cls
          /\ is_user_defined_generic cls = false)
  /\ (resolve_classmethod func = Raise (ValueError does_not_support_generic)
      <-> exists cls, bound_to_class func = Some cls
                      /\ is_user_defined_generic cls = true)
  /\ (resolve_classmethod func = Raise (ValueError expects_classmethod)
      <-> bound_to_class func = None)
  /\ (forall e, resolve_classmethod func = Raise e ->
                e = ValueError does_not_support_generic
                \/ e = ValueError expects_classmethod).
Proof.
  unfold resolve_classmethod, bound_to_class.
  destruct (method_self func) as [bound|]; simpl.
  - destruct (is_type bound); simpl.
    + destruct (is_user_defined_generic bound) eqn:G.
      * split; [|split; [|split]].
        -- intros cls f. split; [done|]. intros (_ & [= <-] & H). congruence.
        -- split; [eauto|done].
        -- split; [|done]. intros [=].
        -- intros e [= <-]. by left.
      * split; [|split; [|split]].
        -- intros cls f. split.
           ++ by intros [= <- <-].
           ++ by intros (-> & [= <-] & _).
        -- split; [done|]. intros (cls & [= <-] & H). congruence.
        -- split; done.
        -- done.
    + split; [|split; [|split]].
      * intros cls f. split; [done|]. by intros (_ & H & _).
      * split; [|by intros (cls & H & _)]. intros [=].
      * done.
      * intros e [= <-]. by right.
  - split; [|split; [|split]].
    + intros cls f. split; [done|]. by intros (_ & H & _).
    + split; [|by intros (cls & H & _)]. intros [=].
    + done.
    + intros e [= <-]. by right.
Qed.
End Resolve.

(** The classes of the test module: [Gen] is a user-defined generic,
    [GenChildExplicit] is not. *)
Definition test_generic (o : PyObject) : bool :=
  match o with
  | PyClass name => bool_decide (name ∈ ["Gen"; "GenChildExplicitTypeVar"; "GenGen"])
  | PyAlias (PyClass name) "V" =>
      bool_decide (name ∈ ["Gen"; "GenChildExplicitTypeVar"; "GenGen"])
  | _ => false
  end.

Example resolve_plain_class :
  resolve_classmethod test_generic (PyMethod "make" (PyClass "GenChildExplicit"))
  = Ok (PyClass "GenChildExplicit", PyMethod "make" (PyClass "GenChildExplicit")).
Proof. reflexivity. Qed.

Example resolve_generic_class :
  resolve_classmethod test_generic (PyMethod "make" (PyClass "Gen"))
  = Raise (ValueError does_not_support_generic).
Proof. reflexivity. Qed.

Example resolve_len :
  resolve_classmethod test_generic (PyBuiltinMethod "len" (PyModule "builtins"))
  = Raise (ValueError expects_classmethod).
Proof. reflexivity. Qed.

Lemma resolve_classmethod_spec_witness :
  (exists msg, resolve_classmethod test_generic (PyFunction "f")
               = Raise (ValueError msg))
  /\ (exists bound,
        method_self (PyMethod "make" (PyClass "A")) = Some bound
        /\ resolve_classmethod test_generic (PyMethod "make" (PyClass "A"))
           = Ok (bound, PyMethod "make" (PyClass "A"))).
Proof.
  split.
  - apply (proj1 (resolve_classmethod_spec test_generic (PyFunction "f"))).
    left. reflexivity.
  - apply (proj2 (resolve_classmethod_spec test_generic
                    (PyMethod "make" (PyClass "A")))).
    intros [H|[(b & Hb & H)|(b & Hb & H)]];
      simpl in *; simplify_eq; discriminate.
Defined.

Lemma resolve_classmethod_outcomes_witness :
  resolve_classmethod test_generic (PyMethod "make" (PyClass "A"))
  = Ok (PyClass "A", PyMethod "make" (PyClass "A"))
  /\ resolve_classmethod test_generic (PyMethod "make" (PyClass "GenGen"))
     = Raise (ValueError does_not_support_generic)
  /\ resolve_classmethod test_generic (PyMethod "run" (PyInstance (PyClass "Gen")))
     = Raise (ValueError expects_classmethod).
Proof.
  split; [|split].
  - apply (proj1 (resolve_classmethod_outcomes test_generic
                    (PyMethod "make" (PyClass "A")))).
    repeat split; reflexivity.
  - apply (proj1 (proj2 (resolve_classmethod_outcomes test_generic
                           (PyMethod "make" (PyClass "GenGen"))))).
    exists (PyClass "GenGen"). split; reflexivity.
  - apply (proj1 (proj2 (proj2 (resolve_classmethod_outcomes test_generic
                                  (PyMethod "run" (PyInstance (PyClass "Gen"))))))).
    reflexivity.
Defined.

End HighLevelUtils.

(** ** integrations/msgspec/native.py *)

Module NativeMsgspec.

(** [Omittable[T]]: either the marker [Omitted()] or a value. *)
Inductive Omittable (A : Type) : Type :=
| Omitted
| Given (a : A).
Arguments Omitted {A}.
Arguments Given {A} a.

Definition is_omitted {A} (v : Omittable A) : bool :=
  match v with Omitted => true | Given _ => false end.

Section Provider.
(** Python values ([Any]) and type hints are left abstract; so is the
    third-party library: [msgspec.convert(data, type=tp, **kwargs)] and
    [msgspec.to_builtins(data, **kwargs)]. *)
Variables Any TypeHint : Type.
Variable msgspec_convert :
  Any -> TypeHint -> gmap string (Omittable Any) -> result Any.
Variable msgspec_to_builtins :
  Any -> gmap string (Omittable Any) -> result Any.

Record NativeMsgspecProvider : Type := {
  conversion_params : gmap string (Omittable Any);
  to_builtins_params : gmap string (Omittable Any);
}.

(** [request.last_loc.type] is all the loader reads of its request. *)
Record LoaderRequest : Type := { last_loc_type : TypeHint }.

(** [{k: v for k, v in mapping.items() if v != Omitted()}] *)
Definition _skip_omitted (mapping : gmap string (Omittable Any))
  : gmap string (Omittable Any) :=
  filter (fun kv => is_omitted kv.2 = false) mapping.

(** Truth value of a dict: it is not empty. *)
Definition truthy (m : gmap string (Omittable Any)) : bool :=
  negb (bool_decide (size m = 0)).

(** [try: return convert(...) except msgspec.ValidationError as e:
    raise LoadError() from e] *)
Definition translate_validation_error (r : result Any) : result Any :=
  match r with
  | Ok v => Ok v
  | Raise (ValidationError msg) => Raise (LoadError (ValidationError msg))
  | Raise e => Raise e
  end.

Definition provide_loader (self : NativeMsgspecProvider)
    (request : LoaderRequest) : Any -> result Any :=
  let conversion_params := _skip_omitted (conversion_params self) in
  if truthy conversion_params then
    (* native_msgspec_loader *)
    fun data =>
      translate_validation_error
        (msgspec_convert data (last_loc_type request) conversion_params)
  else
    (* native_msgspec_loader_no_params *)
    fun data =>
      translate_validation_error
        (msgspec_convert data (last_loc_type request) ∅).

Definition provide_dumper (self : NativeMsgspecProvider)
  : Any -> result Any :=
  let to_builtins_params := _skip_omitted (to_builtins_params self) in
  if truthy to_builtins_params then
    (* native_msgspec_dumper_with_params *)
    fun data => msgspec_to_builtins data to_builtins_params
  else
    fun data => msgspec_to_builtins data ∅.

Lemma truthy_false (m : gmap string (Omittable Any)) :
  truthy m = false -> m = ∅.
Proof.
  unfold truthy. intros H. apply negb_false_iff, bool_decide_eq_true in H.
  by apply map_size_empty_iff.
Qed.

(** No omitted parameter is ever passed on, and every given one is. *)
Lemma _skip_omitted_lookup mapping k v :
  _skip_omitted mapping !! k = Some v
  <-> mapping !! k = Some v /\ is_omitted v = false.
Proof. unfold _skip_omitted. by rewrite map_lookup_filter_Some. Qed.

(** The keyword arguments the underlying conversion is called with:
    both branches of [provide_loader] pass the non-omitted ones. *)
Lemma provide_loader_unfold self request data :
  provide_loader self request data
  = translate_validation_error
      (msgspec_convert data (last_loc_type request)
         (_skip_omitted (conversion_params self))).
Proof.
  unfold provide_loader.
  destruct (truthy _) eqn:E; [done|].
  by rewrite (truthy_false _ E).
Qed.

Lemma provide_dumper_unfold self data :
  provide_dumper self data
  = msgspec_to_builtins data (_skip_omitted (to_builtins_params self)).
Proof.
  unfold provide_dumper.
  destruct (truthy _) eqn:E; [done|].
  by rewrite (truthy_false _ E).
Qed.

(** C9: the loader returns what the conversion returns when it
    accepts the value, raises [LoadError] (caused by the validation
    error) when the conversion rejects the value, and lets every other
    failure through; the dumper is the conversion to builtins itself,
    whatever it returns or raises. *)
Theorem native_loader_dumper_spec self request data :
  let converted :=
    msgspec_convert data (last_loc_type request)
      (_skip_omitted (conversion_params self)) in
  (forall v, converted = Ok v -> provide_loader self request data = Ok v)
  /\ (forall msg, converted = Raise (ValidationError msg) ->
        provide_loader self request data
        = Raise (LoadError (ValidationError msg)))
  /\ (forall e, converted = Raise e ->
        (forall msg, e <> ValidationError msg) ->
        provide_loader self request data = Raise e)
  /\ provide_dumper self data
     = msgspec_to_builtins data (_skip_omitted (to_builtins_params self)).
Proof.
  cbv zeta. rewrite provide_loader_unfold, provide_dumper_unfold.
  repeat split.
  - by intros v ->.
  - by intros msg ->.
  - intros e -> Hne. destruct e; try done. by destruct (Hne msg).
Qed.
(** *** What the loader and the dumper never do *)

(** X2: the loader never lets [msgspec.ValidationError] out: whatever it
    raises is either what the conversion raised, when that was not a
    validation error, or the [LoadError] whose cause is the validation
    error the conversion raised. *)
Theorem native_loader_hides_validation_error self request data e :
  provide_loader self request data = Raise e ->
  (forall msg, e <> ValidationError msg)
  /\ let converted :=
       msgspec_convert data (last_loc_type request)
         (_skip_omitted (conversion_params self)) in
     converted = Raise e
     \/ exists msg, converted = Raise (ValidationError msg)
                    /\ e = LoadError (ValidationError msg).
Proof.
  rewrite provide_loader_unfold. cbv zeta.
  destruct (msgspec_convert _ _ _) as [v|c]; [done|].
  destruct c; simpl; intros [= <-]; (split; [done|]); eauto.
Qed.

(** X3: a parameter left at [Omitted()] counts for nothing: the loader
    and the dumper built with a key set to [Omitted()] are those built
    without the key, and no keyword argument handed to msgspec is
    [Omitted()]. *)
Theorem omitted_parameter_is_no_parameter
    (conv builtins : gmap string (Omittable Any)) (k : string) request data :
  provide_loader
    {| conversion_params := <[k := Omitted]> conv; to_builtins_params := builtins |}
    request data
  = provide_loader
      {| conversion_params := delete k conv; to_builtins_params := builtins |}
      request data
  /\ provide_dumper
       {| conversion_params := conv; to_builtins_params := <[k := Omitted]> builtins |}
       data
     = provide_dumper
         {| conversion_params := conv; to_builtins_params := delete k builtins |}
         data
  /\ (forall key v, _skip_omitted conv !! key = Some v -> v <> Omitted).
Proof.
  rewrite !provide_loader_unfold, !provide_dumper_unfold. simpl.
  unfold _skip_omitted.
  rewrite !map_filter_insert_False by (simpl; congruence).
  split; [done|]. split; [done|].
  intros key v [_ Hv]%map_lookup_filter_Some ->. done.
Qed.

(** *** The [native_msgspec] entry point *)

(** [Pred] and [bound_by_any] belong to the provider facade, which is
    not among the sources. *)
Variables Pred Provider : Type.
Variable bound_by_any : list Pred -> NativeMsgspecProvider -> Provider.

(** The [NativeMsgspecProvider(...)] that [native_msgspec] builds from
    its keyword arguments. *)
Definition native_msgspec_provider
    (enc_hook to_builtins_builtin_types to_builtins_str_keys
     dec_hook convert_builtin_types convert_str_keys
     strict from_attributes : Omittable Any) : NativeMsgspecProvider :=
  {| conversion_params :=
       list_to_map [("builtin_types", convert_builtin_types);
                    ("str_keys", convert_str_keys);
                    ("strict", strict);
                    ("from_attributes", from_attributes);
                    ("dec_hook", dec_hook)];
     to_builtins_params :=
       list_to_map [("builtin_types", to_builtins_builtin_types);
                    ("str_keys", to_builtins_str_keys);
                    ("enc_hook", enc_hook)] |}.

Definition native_msgspec (preds : list Pred)
    (enc_hook to_builtins_builtin_types to_builtins_str_keys
     dec_hook convert_builtin_types convert_str_keys
     strict from_attributes : Omittable Any) : Provider :=
  bound_by_any preds
    (native_msgspec_provider enc_hook to_builtins_builtin_types
       to_builtins_str_keys dec_hook convert_builtin_types convert_str_keys
       strict from_attributes).

(** A keyword argument as msgspec receives it: absent when omitted. *)
Definition passed (v : Omittable Any) : option (Omittable Any) :=
  if is_omitted v then None else Some v.

Lemma _skip_omitted_passed (mapping : gmap string (Omittable Any)) k :
  _skip_omitted mapping !! k = mapping !! k ≫= passed.
Proof.
  unfold _skip_omitted. rewrite map_lookup_filter.
  by destruct (mapping !! k) as [[|a]|].
Qed.

(** X4: [native_msgspec] hands each option to the msgspec function it is
    meant for and to no other, under msgspec's own name for it:
    [convert_builtin_types], [convert_str_keys], [strict],
    [from_attributes] and [dec_hook] reach [convert] only;
    [to_builtins_builtin_types], [to_builtins_str_keys] and [enc_hook]
    reach [to_builtins] only; an option left out is not passed at all. *)
Theorem native_msgspec_routes_options
    (enc_hook to_builtins_builtin_types to_builtins_str_keys
     dec_hook convert_builtin_types convert_str_keys
     strict from_attributes : Omittable Any) request data :
  let provider :=
    native_msgspec_provider enc_hook to_builtins_builtin_types
      to_builtins_str_keys dec_hook convert_builtin_types convert_str_keys
      strict from_attributes in
  exists convert_kwargs builtins_kwargs : gmap string (Omittable Any),
    provide_loader provider request data
    = translate_validation_error
        (msgspec_convert data (last_loc_type request) convert_kwargs)
    /\ provide_dumper provider data = msgspec_to_builtins data builtins_kwargs
    /\ convert_kwargs !! "builtin_types" = passed convert_builtin_types
    /\ convert_kwargs !! "str_keys" = passed convert_str_keys
    /\ convert_kwargs !! "strict" = passed strict
    /\ convert_kwargs !! "from_attributes" = passed from_attributes
    /\ convert_kwargs !! "dec_hook" = passed dec_hook
    /\ dom convert_kwargs
       ⊆ {["builtin_types"; "str_keys"; "strict"; "from_attributes"; "dec_hook"]}
    /\ builtins_kwargs !! "builtin_types" = passed to_builtins_builtin_types
    /\ builtins_kwargs !! "str_keys" = passed to_builtins_str_keys
    /\ builtins_kwargs !! "enc_hook" = passed enc_hook
    /\ dom builtins_kwargs ⊆ {["builtin_types"; "str_keys"; "enc_hook"]}.
Proof.
  cbv zeta.
  eexists _, _. split; [apply provide_loader_unfold|].
  split; [apply provide_dumper_unfold|].
  rewrite !_skip_omitted_passed. unfold _skip_omitted.
  repeat split; try reflexivity.
  - etrans; [apply dom_filter_subseteq|]. simpl.
    rewrite !dom_insert_L, dom_empty_L. set_solver.
  - etrans; [apply dom_filter_subseteq|]. simpl.
    rewrite !dom_insert_L, dom_empty_L. set_solver.
Qed.

End Provider.

(** A small stand-in for the library, to run the definitions:
    values are numbers or text, the only type is int, and [strict]
    decides whether text holding a digit is accepted. *)
Inductive Val : Type := VInt (n : nat) | VStr (s : string) | VBool (b : bool).

Definition demo_convert (data : Val) (tp : unit)
    (kw : gmap string (Omittable Val)) : result Val :=
  match data with
  | VInt n => Ok (VInt n)
  | VStr "7" =>
      match kw !! "strict" with
      | Some (Given (VBool false)) => Ok (VInt 7)
      | _ => Raise (ValidationError "Expected `int`, got `str`")
      end
  | VStr _ => Raise (ValidationError "Expected `int`, got `str`")
  | VBool _ => Raise (OtherError "TypeError")
  end.

Definition demo_to_builtins (data : Val)
    (kw : gmap string (Omittable Val)) : result Val :=
  match data with
  | VBool _ => Raise (OtherError "TypeError")
  | v => Ok v
  end.

Definition demo_provider : NativeMsgspecProvider Val := {|
  conversion_params :=
    <["strict" := Given (VBool false)]> (<["str_keys" := Omitted]> ∅);
  to_builtins_params := <["str_keys" := Omitted]> ∅;
|}.

Definition strict_provider : NativeMsgspecProvider Val := {|
  conversion_params := <["strict" := Omitted]> ∅;
  to_builtins_params := ∅;
|}.

Example lenient_loader_accepts :
  provide_loader Val unit demo_convert demo_provider
    {| last_loc_type := tt |} (VStr "7") = Ok (VInt 7).
Proof. vm_compute. reflexivity. Qed.

Example strict_loader_rejects :
  provide_loader Val unit demo_convert strict_provider
    {| last_loc_type := tt |} (VStr "7")
  = Raise (LoadError (ValidationError "Expected `int`, got `str`")).
Proof. vm_compute. reflexivity. Qed.

Example dumper_failure_untranslated :
  provide_dumper Val demo_to_builtins demo_provider (VBool true)
  = Raise (OtherError "TypeError").
Proof. vm_compute. reflexivity. Qed.

Lemma native_loader_dumper_spec_witness :
  provide_loader Val unit demo_convert demo_provider
    {| last_loc_type := tt |} (VInt 3) = Ok (VInt 3)
  /\ provide_loader Val unit demo_convert strict_provider
       {| last_loc_type := tt |} (VStr "x")
     = Raise (LoadError (ValidationError "Expected `int`, got `str`"))
  /\ provide_loader Val unit demo_convert strict_provider
       {| last_loc_type := tt |} (VBool true)
     = Raise (OtherError "TypeError").
Proof.
  pose proof (native_loader_dumper_spec Val unit demo_convert
                demo_to_builtins demo_provider
                {| last_loc_type := tt |} (VInt 3)) as H1.
  pose proof (native_loader_dumper_spec Val unit demo_convert
                demo_to_builtins strict_provider
                {| last_loc_type := tt |} (VStr "x")) as H2.
  pose proof (native_loader_dumper_spec Val unit demo_convert
                demo_to_builtins strict_provider
                {| last_loc_type := tt |} (VBool true)) as H3.
  cbv zeta in H1, H2, H3.
  split; [|split].
  - apply (proj1 H1). reflexivity.
  - apply (proj1 (proj2 H2)). reflexivity.
  - apply (proj1 (proj2 (proj2 H3))); [reflexivity | discriminate].
Defined.

Lemma native_loader_hides_validation_error_witness :
  demo_convert (VStr "x") tt (_skip_omitted Val (conversion_params Val strict_provider))
  = Raise (LoadError (ValidationError "Expected `int`, got `str`"))
  \/ exists msg,
      demo_convert (VStr "x") tt
        (_skip_omitted Val (conversion_params Val strict_provider))
      = Raise (ValidationError msg)
      /\ LoadError (ValidationError "Expected `int`, got `str`")
         = LoadError (ValidationError msg).
Proof.
  exact (proj2 (native_loader_hides_validation_error Val unit demo_convert
                  strict_provider {| last_loc_type := tt |} (VStr "x")
                  (LoadError (ValidationError "Expected `int`, got `str`"))
                  eq_refl)).
Defined.

(** With every option left out the loader calls [convert] with the type
    alone; with [strict=False] that is the one keyword passed. *)
Example native_msgspec_defaults :
  provide_loader Val unit demo_convert
    (native_msgspec_provider Val Omitted Omitted Omitted Omitted Omitted Omitted
       Omitted Omitted)
    {| last_loc_type := tt |} (VStr "7")
  = Raise (LoadError (ValidationError "Expected `int`, got `str`")).
Proof. vm_compute. reflexivity. Qed.

Example native_msgspec_lenient :
  provide_loader Val unit demo_convert
    (native_msgspec_provider Val Omitted Omitted Omitted Omitted Omitted Omitted
       (Given (VBool false)) Omitted)
    {| last_loc_type := tt |} (VStr "7")
  = Ok (VInt 7).
Proof. vm_compute. reflexivity. Qed.

End NativeMsgspec.

(** ** The resolution core, as tests_helpers.py drives it *)

Module ResolutionCore.

Section Retort.
(** Requests, what providers answer, and the kind of a request
    (its class); [request_str] is [str(request)]. *)
Variables Request Response Kind : Type.
Context `{EqDecision Kind}.
Variable kind_of : Request -> Kind.
Variable request_str : Request -> string.

(** What a provider is handed to issue nested requests. *)
Definition Mediator : Type := Request -> result Response.

(** [Provider.apply_provider(self, mediator, request)] *)
Definition Provider : Type := Mediator -> Request -> result Response.

(** tests_helpers.py, [PlaceholderProvider.apply_provider]:
    [raise CannotProvide], whatever the request. *)
Definition PlaceholderProvider (value : Z) : Provider :=
  fun mediator request => Raise CannotProvide.

(** A retort holds its providers in registration order, each under
    the kind of request it is registered for. *)
Record Retort : Type := { recipe : list (Kind * Provider) }.

Definition providers_for (self : Retort) (k : Kind) : list Provider :=
  (filter (fun kp => kp.1 = k) (recipe self)).*2.

(** Modelled from the spec: the chain of responsibility of the
    Resolution Core (section 4.1), whose code is not among the
    sources. Each provider registered for the kind is tried in
    order with the mediator; the inapplicability signal means
    "try the next handler", any other outcome is the answer. *)
Fixpoint try_providers (mediator : Mediator) (ps : list Provider)
    (request : Request) : result Response :=
  match ps with
  | [] => Raise CannotProvide
  | p :: rest =>
      match p mediator request with
      | Raise CannotProvide => try_providers mediator rest request
      | answer => answer
      end
  end.

(** Modelled from the spec: [AdornedRetort._facade_provide], not
    among the sources. "If every Provider signals inapplicability,
    provide fails with a terminal no-provider-found error"; the
    error carries [error_message]. [provide] is the retort's own
    entry point, which providers reach through the mediator. *)
Definition _facade_provide (provide : Mediator) (self : Retort)
    (request : Request) (error_message : string) : result Response :=
  match try_providers provide (providers_for self (kind_of request)) request with
  | Raise CannotProvide => Raise (NoSuitableProvider error_message)
  | answer => answer
  end.

(** tests_helpers.py, [TestRetort.provide]:
    [self._facade_provide(request, error_message=f'cannot provide {request}')].
    [depth] bounds the nesting of requests, as the interpreter's
    recursion limit does. *)
Fixpoint provide (depth : nat) (self : Retort) (request : Request)
  : result Response :=
  match depth with
  | 0 => Raise RecursionError
  | S d =>
      _facade_provide (provide d self) self request
        ("cannot provide " ++ request_str request)
  end.

(** Providers that signal inapplicability are passed over. *)
Lemma try_providers_skip mediator pre ps request :
  Forall (fun q : Provider => q mediator request = Raise CannotProvide) pre ->
  try_providers mediator (pre ++ ps)%list request
  = try_providers mediator ps request.
Proof.
  induction 1 as [|q pre Hq _ IH]; [done|].
  simpl. by rewrite Hq.
Qed.

Lemma try_providers_all_inapplicable mediator ps request :
  Forall (fun q : Provider => q mediator request = Raise CannotProvide) ps ->
  try_providers mediator ps request = Raise CannotProvide.
Proof.
  intros H. rewrite <- (app_nil_r ps). by rewrite try_providers_skip.
Qed.

Lemma try_providers_first mediator pre p post request :
  Forall (fun q : Provider => q mediator request = Raise CannotProvide) pre ->
  p mediator request <> Raise CannotProvide ->
  try_providers mediator (pre ++ p :: post)%list request = p mediator request.
Proof.
  intros Hpre Hp. rewrite try_providers_skip by done. simpl.
  destruct (p mediator request) as [a|[]]; done.
Qed.

(** Registration order is kept among the providers of one kind. *)
Lemma providers_for_app r1 r2 k :
  providers_for {| recipe := (r1 ++ r2)%list |} k
  = (providers_for {| recipe := r1 |} k ++ providers_for {| recipe := r2 |} k)%list.
Proof. unfold providers_for. simpl. by rewrite filter_app, fmap_app. Qed.

(** C1: [provide] returns the outcome of the first provider, in
    registration order, that does not signal CannotProvide; when every
    provider registered for the kind signals it, [provide] fails with
    the terminal error whose message ends in the request. *)
Theorem provide_first_applicable depth self request :
  let mediator := provide depth self in
  let inapplicable (q : Provider) := q mediator request = Raise CannotProvide in
  (forall pre p post,
      providers_for self (kind_of request) = (pre ++ p :: post)%list ->
      Forall inapplicable pre ->
      ~ inapplicable p ->
      provide (S depth) self request = p mediator request)
  /\ (Forall inapplicable (providers_for self (kind_of request)) ->
      provide (S depth) self request
      = Raise (NoSuitableProvider ("cannot provide " ++ request_str request))).
Proof.
  cbv zeta. split.
  - intros pre p post Hps Hpre Hp. simpl. unfold _facade_provide.
    rewrite Hps, try_providers_first by done.
    destruct (p (provide depth self) request) as [a|[]]; done.
  - intros Hall. simpl. unfold _facade_provide.
    by rewrite try_providers_all_inapplicable.
Qed.
End Retort.

(** Three providers registered in order for the kind "loader"; requests
    are named by their text. *)
Definition answer (n : nat) : Provider string nat := fun _ _ => Ok n.

Definition p1_p2_p3 : Retort string nat string := {|
  recipe := [("loader", PlaceholderProvider string nat 1);
             ("dumper", answer 9);
             ("loader", PlaceholderProvider string nat 2);
             ("loader", answer 3);
             ("loader", answer 4)]
|}.

Definition all_placeholders : Retort string nat string := {|
  recipe := [("loader", PlaceholderProvider string nat 1);
             ("loader", PlaceholderProvider string nat 2);
             ("loader", PlaceholderProvider string nat 3)]
|}.

Definition loader_kind (request : string) : string := "loader".

Example third_provider_answers :
  provide string nat string loader_kind id 1 p1_p2_p3 "LoaderRequest(int)" = Ok 3.
Proof. reflexivity. Qed.

Example nobody_answers :
  provide string nat string loader_kind id 1 all_placeholders "LoaderRequest(int)"
  = Raise (NoSuitableProvider "cannot provide LoaderRequest(int)").
Proof. reflexivity. Qed.

Lemma provide_first_applicable_witness :
  provide string nat string loader_kind id 1 p1_p2_p3 "LoaderRequest(int)"
  = answer 3 (provide string nat string loader_kind id 0 p1_p2_p3) "LoaderRequest(int)"
  /\ provide string nat string loader_kind id 1 all_placeholders "LoaderRequest(int)"
     = Raise (NoSuitableProvider ("cannot provide " ++ "LoaderRequest(int)")).
Proof.
  split.
  - apply (proj1 (provide_first_applicable string nat string loader_kind id
                    0 p1_p2_p3 "LoaderRequest(int)")
             [PlaceholderProvider string nat 1; PlaceholderProvider string nat 2]
             (answer 3) [answer 4]).
    + reflexivity.
    + repeat constructor.
    + discriminate.
  - apply (proj2 (provide_first_applicable string nat string loader_kind id
                    0 all_placeholders "LoaderRequest(int)")).
    repeat constructor.
Defined.

End ResolutionCore.

(** ** provider/model/loader_provider.py *)

Module ModelLoader.

(** *** Shapes (figures) and crowns *)

(** A type hint, as [_get_closure_name] reads it: a class has a
    [__name__], anything else is shown with [str]. *)
Inductive TypeHint : Type :=
| TpClass (name : string)
| TpOther (str : string).

(** Modelled from the spec: the declarations of provider/model/definitions.py
    and crown_definitions.py are not among the sources. A Field has a
    name, a type, requiredness and an optional default; a Shape is an
    ordered sequence of Fields with an extra-data policy, [None] or
    collect. *)
Record InputField : Type := {
  name : string;
  type : TypeHint;
  is_required : bool;
  default : option string;
}.

Inductive ExtraPolicy : Type := ExtraCollect.

Record InputFigure : Type := {
  fields : list InputField;
  extra : option ExtraPolicy;
}.

(** Modelled from the spec: the three kinds of crown node (section 3);
    [extra_target] is the optional target that collects unmapped keys
    or items. *)
#[local] Unset Elimination Schemes.
Inductive Crown : Type :=
| Leaf (field_name : string)
| DictCrown (map : list (string * Crown)) (extra_target : option string)
| ListCrown (map : list Crown) (extra_target : option string).
#[local] Set Elimination Schemes.

Record InputNameMapping : Type := { crown : Crown }.

(** Induction over crowns that reaches the children held in lists. *)
Section CrownInduction.
Variable P : Crown -> Prop.
Hypothesis HLeaf : forall n, P (Leaf n).
Hypothesis HDict : forall m target,
    Forall (fun kc => P kc.2) m -> P (DictCrown m target).
Hypothesis HList : forall cs target,
    Forall P cs -> P (ListCrown cs target).

Fixpoint Crown_nested_ind (c : Crown) : P c :=
  match c with
  | Leaf n => HLeaf n
  | DictCrown m target =>
      HDict m target
        ((fix go (l : list (string * Crown)) : Forall (fun kc => P kc.2) l :=
            match l with
            | [] => @List.Forall_nil _ _
            | kc :: l' => @List.Forall_cons _ _ kc l' (Crown_nested_ind kc.2) (go l')
            end) m)
  | ListCrown cs target =>
      HList cs target
        ((fix go (l : list Crown) : Forall P l :=
            match l with
            | [] => @List.Forall_nil _ _
            | c' :: l' => @List.Forall_cons _ _ c' l' (Crown_nested_ind c') (go l')
            end) cs)
  end.
End CrownInduction.

(** The field names at the leaves of a crown, depth first. *)
Fixpoint crown_leaves (c : Crown) : list string :=
  match c with
  | Leaf n => [n]
  | DictCrown m _ => flat_map (fun kc => crown_leaves kc.2) m
  | ListCrown cs _ => flat_map crown_leaves cs
  end.

(** Modelled from the spec: [basic_gen.get_skipped_fields], not among
    the sources: "the set of Fields with no corresponding Leaf in the
    Crown". *)
Definition get_skipped_fields (figure : InputFigure)
    (name_mapping : InputNameMapping) : gset string :=
  list_to_set
    (List.filter
       (fun n => negb (bool_decide (n ∈ crown_leaves (crown name_mapping))))
       (List.map name (fields figure))).

(** Modelled from the spec: [basic_gen.strip_figure], not among the
    sources: "the reduced Shape after removing Fields explicitly
    excluded by the mapping". *)
Definition strip_figure (figure : InputFigure) (skipped_fields : gset string)
  : InputFigure :=
  {| fields :=
       List.filter (fun f => negb (bool_decide (name f ∈ skipped_fields)))
         (fields figure);
     extra := extra figure |}.

Definition is_some {A} (o : option A) : bool :=
  match o with Some _ => true | None => false end.

(** Modelled from the spec: [basic_gen.has_collect_policy], not among
    the sources: "the Crown declares any extra-target". *)
Fixpoint has_collect_policy (c : Crown) : bool :=
  match c with
  | Leaf _ => false
  | DictCrown m target =>
      is_some target || existsb (fun kc => has_collect_policy kc.2) m
  | ListCrown cs target =>
      is_some target || existsb has_collect_policy cs
  end.

(** Modelled from the spec: [basic_gen.get_optional_fields_at_list_crown],
    not among the sources: "for every ListCrown position occupied by a
    Leaf referencing an optional Field, collect the field name". *)
Fixpoint get_optional_fields_at_list_crown
    (fields_map : gmap string InputField) (c : Crown) : list string :=
  match c with
  | Leaf _ => []
  | DictCrown m _ =>
      flat_map (fun kc => get_optional_fields_at_list_crown fields_map kc.2) m
  | ListCrown cs _ =>
      flat_map
        (fun sub_crown =>
           match sub_crown with
           | Leaf n =>
               match fields_map !! n with
               | Some field => if is_required field then [] else [n]
               | None => []
               end
           | _ => get_optional_fields_at_list_crown fields_map sub_crown
           end) cs
  end.

(** What the functions above are meant to compute, stated on the tree. *)
Inductive has_leaf (n : string) : Crown -> Prop :=
| has_leaf_here : has_leaf n (Leaf n)
| has_leaf_dict m target key c :
    (key, c) ∈ m -> has_leaf n c -> has_leaf n (DictCrown m target)
| has_leaf_list cs target c :
    c ∈ cs -> has_leaf n c -> has_leaf n (ListCrown cs target).

Inductive leaf_at_list (n : string) : Crown -> Prop :=
| leaf_at_list_here cs target :
    Leaf n ∈ cs -> leaf_at_list n (ListCrown cs target)
| leaf_at_list_dict m target key c :
    (key, c) ∈ m -> leaf_at_list n c -> leaf_at_list n (DictCrown m target)
| leaf_at_list_list cs target c :
    c ∈ cs -> leaf_at_list n c -> leaf_at_list n (ListCrown cs target).

Inductive declares_extra_target : Crown -> Prop :=
| declares_at_dict m t : declares_extra_target (DictCrown m (Some t))
| declares_at_list cs t : declares_extra_target (ListCrown cs (Some t))
| declares_in_dict m target key c :
    (key, c) ∈ m -> declares_extra_target c ->
    declares_extra_target (DictCrown m target)
| declares_in_list cs target c :
    c ∈ cs -> declares_extra_target c ->
    declares_extra_target (ListCrown cs target).

(** *** The tree functions compute what they are meant to *)

Lemma elem_of_flat_map {A B} (f : A -> list B) (l : list A) (y : B) :
  y ∈ flat_map f l <-> exists x, x ∈ l /\ y ∈ f x.
Proof.
  rewrite list_elem_of_In, in_flat_map.
  by setoid_rewrite list_elem_of_In.
Qed.

Lemma existsb_elem_of {A} (f : A -> bool) (l : list A) :
  existsb f l = true <-> exists x, x ∈ l /\ f x = true.
Proof.
  rewrite existsb_exists. by setoid_rewrite list_elem_of_In.
Qed.

Lemma elem_of_filter_bool {A} (f : A -> bool) (l : list A) (x : A) :
  x ∈ List.filter f l <-> x ∈ l /\ f x = true.
Proof. by rewrite !list_elem_of_In, filter_In. Qed.

Lemma elem_of_map_name (l : list InputField) (n : string) :
  n ∈ List.map name l <-> exists f, f ∈ l /\ name f = n.
Proof.
  rewrite list_elem_of_In, in_map_iff.
  setoid_rewrite list_elem_of_In.
  split; intros (f & ? & ?); by exists f.
Qed.

Lemma elem_of_crown_leaves (n : string) (c : Crown) :
  n ∈ crown_leaves c <-> has_leaf n c.
Proof.
  induction c as [n0|m target IH|cs target IH] using Crown_nested_ind; simpl.
  - rewrite list_elem_of_singleton. split.
    + intros ->. constructor.
    + by inversion 1.
  - rewrite elem_of_flat_map, Forall_forall in *. split.
    + intros ([key c] & Hin & Hn). econstructor; [done|]. by apply (IH _ Hin).
    + inversion 1 as [|? ? key c Hin Hc|]; subst.
      exists (key, c). split; [done|]. by apply (IH _ Hin).
  - rewrite elem_of_flat_map, Forall_forall in *. split.
    + intros (c & Hin & Hn). econstructor; [done|]. by apply IH.
    + inversion 1 as [| |? ? c Hin Hc]; subst.
      exists c. split; [done|]. by apply IH.
Qed.

Lemma elem_of_get_skipped_fields figure name_mapping (n : string) :
  n ∈ get_skipped_fields figure name_mapping
  <-> (exists f, f ∈ fields figure /\ name f = n)
      /\ ~ has_leaf n (crown name_mapping).
Proof.
  unfold get_skipped_fields.
  rewrite elem_of_list_to_set, elem_of_filter_bool, elem_of_map_name.
  rewrite negb_true_iff, bool_decide_eq_false, elem_of_crown_leaves.
  done.
Qed.

Lemma elem_of_strip_figure figure skipped (f : InputField) :
  f ∈ fields (strip_figure figure skipped)
  <-> f ∈ fields figure /\ name f ∉ skipped.
Proof.
  unfold strip_figure. simpl.
  by rewrite elem_of_filter_bool, negb_true_iff, bool_decide_eq_false.
Qed.

Lemma has_collect_policy_true (c : Crown) :
  has_collect_policy c = true <-> declares_extra_target c.
Proof.
  induction c as [n0|m target IH|cs target IH] using Crown_nested_ind; simpl.
  - split; [done|inversion 1].
  - rewrite orb_true_iff, existsb_elem_of, Forall_forall in *. split.
    + intros [Ht|([key c] & Hin & Hc)].
      * destruct target; [constructor|done].
      * eapply declares_in_dict; [done|]. by apply (IH _ Hin).
    + inversion 1 as [| |? ? key c Hin Hc|]; subst; [by left|].
      right. exists (key, c). split; [done|]. by apply (IH _ Hin).
  - rewrite orb_true_iff, existsb_elem_of, Forall_forall in *. split.
    + intros [Ht|(c & Hin & Hc)].
      * destruct target; [constructor|done].
      * eapply declares_in_list; [done|]. by apply IH.
    + inversion 1 as [|? ? | |? ? c Hin Hc]; subst; [by left|].
      right. exists c. split; [done|]. by apply IH.
Qed.

Definition optional_in (fields_map : gmap string InputField) (n : string) : Prop :=
  exists field, fields_map !! n = Some field /\ is_required field = false.

Lemma elem_of_optional_fields_at_list_crown fields_map (c : Crown) (n : string) :
  n ∈ get_optional_fields_at_list_crown fields_map c
  <-> leaf_at_list n c /\ optional_in fields_map n.
Proof.
  induction c as [n0|m target IH|cs target IH] using Crown_nested_ind; simpl.
  - rewrite elem_of_nil. split; [done|]. intros [H _]. inversion H.
  - rewrite elem_of_flat_map, Forall_forall in *. split.
    + intros ([key c] & Hin & Hn). apply (IH _ Hin) in Hn as [Hl Ho].
      split; [|done]. by eapply leaf_at_list_dict.
    + intros [Hl Ho]. inversion Hl as [|? ? key c Hin Hc|]; subst.
      exists (key, c). split; [done|]. by apply (IH _ Hin).
  - rewrite elem_of_flat_map, Forall_forall in *. split.
    + intros (c & Hin & Hn). destruct c as [n0| |].
      * destruct (fields_map !! n0) as [field|] eqn:E; [|by inversion Hn].
        destruct (is_required field) eqn:R; [by inversion Hn|].
        apply list_elem_of_singleton in Hn as ->.
        split; [by constructor|]. by exists field.
      * apply (IH _ Hin) in Hn as [Hl Ho].
        split; [|done]. by eapply leaf_at_list_list.
      * apply (IH _ Hin) in Hn as [Hl Ho].
        split; [|done]. by eapply leaf_at_list_list.
    + intros [Hl (field & Hf & Hr)].
      inversion Hl as [? ? Hin| |? ? c Hin Hc]; subst.
      * exists (Leaf n). split; [done|]. rewrite Hf, Hr.
        by apply list_elem_of_singleton.
      * exists c. split; [done|].
        assert (n ∈ get_optional_fields_at_list_crown fields_map c) as Hn.
        { apply IH; [done|]. split; [done|]. by exists field. }
        destruct c; [inversion Hc|done|done].
Qed.

(** *** Requests, the mediator and the build monad *)

(** The [LoaderRequest] a model loader is built for. *)
Record LoaderRequest : Type := {
  req_type : TypeHint;
  strict_coercion : bool;
  debug_path : bool;
}.

Inductive GenRole : Type := Extraction | Creation.

Inductive Compiler : Type := BasicClosureCompiler.

Section Build.
(** Loaders are callables, code builders and code-generation hooks
    are objects of code_tools and basic_gen; none is looked into. *)
Variables Loader CodeBuilder CodeGenHook : Type.

(** The requests the builder sends to the mediator, and the type of
    answer each one asks for ([Request[T]]). *)
Inductive Request : Type :=
| InputFigureRequest (type : TypeHint)
| InputNameMappingRequest (type : TypeHint) (figure : InputFigure)
| LoaderFieldRequest (strict_coercion debug_path : bool)
    (field : InputField) (type : TypeHint)
| CodeGenHookRequest.

Definition response (request : Request) : Type :=
  match request with
  | InputFigureRequest _ => InputFigure
  | InputNameMappingRequest _ _ => InputNameMapping
  | LoaderFieldRequest _ _ _ _ => Loader
  | CodeGenHookRequest => CodeGenHook
  end.

(** [mediator.provide]: an answer or an exception for each request. *)
Definition Mediator : Type := forall request : Request, result (response request).

(** Modelled from the spec: [VarBinder] "issues unique variable names",
    [ContextNamespace] is "a mapping from generated variable name to a
    captured runtime value". Both are mutable objects, held in the heap
    and passed by reference. *)
Inductive NsValue : Type :=
| NsLoader (loader : Loader)
| NsObject (repr : string).

Record VarBinder : Type := { issued : list string }.
Record BuiltinContextNamespace : Type := { dict : gmap string NsValue }.

Inductive Obj : Type :=
| ObjVarBinder (binder : VarBinder)
| ObjNamespace (ctx_namespace : BuiltinContextNamespace).

Definition loc : Type := nat.

(** [CodeGenerator = Callable[[VarBinder, ContextNamespace], CodeBuilder]]:
    called with two references, it may mutate what they point to. *)
Definition CodeGenerator : Type :=
  loc -> loc -> gmap nat Obj -> result CodeBuilder * gmap nat Obj.

(** The keyword arguments of [compile_closure_with_globals_capturing];
    [namespace] is the [dict] of the namespace object at that
    reference. *)
Record CompileArgs : Type := {
  compiler : Compiler;
  code_gen_hook : CodeGenHook;
  binder : loc;
  namespace : loc;
  body_builders : list CodeBuilder;
  closure_name : string;
  file_name : string;
}.

(** What a build does that can be observed from outside. *)
Inductive Event : Type :=
| EvProvide (request : Request)
| EvGenerate (role : GenRole) (binder ctx_namespace : loc)
    (emitted : result CodeBuilder)
| EvCompile (args : CompileArgs).

Record World : Type := {
  heap : gmap nat Obj;
  trace : list Event;
}.

Definition M (A : Type) : Type := World -> result A * World.

#[local] Instance M_ret : MRet M := fun A a w => (Ok a, w).
#[local] Instance M_bind : MBind M := fun A B k m w =>
  match m w with
  | (Ok a, w') => k a w'
  | (Raise e, w') => (Raise e, w')
  end.

Definition raise {A} (e : exn) : M A := fun w => (Raise e, w).

Definition lift {A} (r : result A) : M A := fun w => (r, w).

Definition log (ev : Event) (w : World) : World :=
  {| heap := heap w; trace := (trace w ++ [ev])%list |}.

Definition provide (mediator : Mediator) (request : Request)
  : M (response request) :=
  fun w => (mediator request, log (EvProvide request) w).

(** [try: m except ...: handler] *)
Definition try_except {A} (m : M A) (handler : exn -> M A) : M A :=
  fun w =>
    match m w with
    | (Ok a, w') => (Ok a, w')
    | (Raise e, w') => handler e w'
    end.

(** Creating an object puts it at a reference not in use. *)
Definition new (o : Obj) : M loc :=
  fun w =>
    let l := fresh (dom (heap w)) in
    (Ok l, {| heap := <[l := o]> (heap w); trace := trace w |}).

Definition call_generator (role : GenRole) (gen : CodeGenerator)
    (binder ctx_namespace : loc) : M CodeBuilder :=
  fun w =>
    let '(emitted, h) := gen binder ctx_namespace (heap w) in
    (emitted,
     {| heap := h;
        trace := (trace w ++ [EvGenerate role binder ctx_namespace emitted])%list |}).

(** Not among the sources: the stub hook and the extra-target scan of
    basic_gen, the two builtin generators, and the closure compiler,
    which may read and write the objects it is given. *)
Variable stub_code_gen_hook : CodeGenHook.
Variable get_extra_targets_at_crown :
  InputFigure -> InputNameMapping -> list string.
Variable BuiltinInputExtractionGen :
  InputFigure -> Crown -> bool -> gmap string Loader -> CodeGenerator.
Variable BuiltinInputCreationGen : InputFigure -> CodeGenerator.
Variable compile_closure_with_globals_capturing :
  CompileArgs -> gmap nat Obj -> result Loader * gmap nat Obj.

Definition call_compile (args : CompileArgs) : M Loader :=
  fun w =>
    let '(loader, h) := compile_closure_with_globals_capturing args (heap w) in
    (loader, {| heap := h; trace := (trace w ++ [EvCompile args])%list |}).

(** *** BuiltinInputExtractionMaker *)

(** [[field.name for field in figure.fields
      if field.is_required and field.name in skipped_fields]] *)
Definition skipped_required_fields (figure : InputFigure)
    (skipped_fields : gset string) : list string :=
  List.map name
    (List.filter
       (fun field => is_required field && bool_decide (name field ∈ skipped_fields))
       (fields figure)).

Definition nonempty {A} (l : list A) : bool :=
  match l with [] => false | _ => true end.

Definition _process_figure (figure : InputFigure)
    (name_mapping : InputNameMapping) : result InputFigure :=
  let skipped_fields := get_skipped_fields figure name_mapping in
  let skipped_required_fields := skipped_required_fields figure skipped_fields in
  if nonempty skipped_required_fields then
    Raise (ValueError [Text "Required fields "; Names skipped_required_fields;
                       Text " are skipped"])
  else Ok (strip_figure figure skipped_fields).

(** [{field.name: field for field in processed_figure.fields}] *)
Definition fields_map (l : list InputField) : gmap string InputField :=
  foldl (fun m field => <[name field := field]> m) ∅ l.

Definition _validate_params (figure processed_figure : InputFigure)
    (name_mapping : InputNameMapping) : result unit :=
  if bool_decide (extra figure = None) && has_collect_policy (crown name_mapping)
  then
    Raise (ValueError
             [Text "Cannot create loader that collect extra data if InputFigure does not take extra data"])
  else
    let extra_targets_at_crown := get_extra_targets_at_crown figure name_mapping in
    if nonempty extra_targets_at_crown then
      Raise (ValueError [Text "Extra targets "; Names extra_targets_at_crown;
                         Text " are found at crown"])
    else
      let optional_fields_at_list_crown :=
        get_optional_fields_at_list_crown
          (fields_map (fields processed_figure)) (crown name_mapping) in
      if nonempty optional_fields_at_list_crown then
        Raise (ValueError [Text "Optional fields "; Names optional_fields_at_list_crown;
                           Text " are found at list crown"])
      else Ok tt.

Definition _create_extraction_gen (request : LoaderRequest)
    (figure : InputFigure) (name_mapping : InputNameMapping)
    (field_loaders : gmap string Loader) : CodeGenerator :=
  BuiltinInputExtractionGen figure (crown name_mapping)
    (debug_path request) field_loaders.

Definition field_request (request : LoaderRequest) (field : InputField)
  : Request :=
  LoaderFieldRequest (strict_coercion request) (debug_path request)
    field (type field).

(** The dict comprehension over [processed_figure.fields]: one
    [mediator.provide] per field, in order, each answer stored under
    the field's name; an exception ends the loop. *)
Fixpoint provide_field_loaders (mediator : Mediator) (request : LoaderRequest)
    (l : list InputField) (field_loaders : gmap string Loader)
  : M (gmap string Loader) :=
  match l with
  | [] => mret field_loaders
  | field :: rest =>
      loader ← provide mediator (field_request request field);
      provide_field_loaders mediator request rest
        (<[name field := loader]> field_loaders)
  end.

(** [BuiltinInputExtractionMaker.__call__] *)
Definition BuiltinInputExtractionMaker_call (mediator : Mediator)
    (request : LoaderRequest) : M (CodeGenerator * InputFigure) :=
  figure ← provide mediator (InputFigureRequest (req_type request));
  name_mapping ←
    provide mediator (InputNameMappingRequest (req_type request) figure);
  processed_figure ← lift (_process_figure figure name_mapping);
  _ ← lift (_validate_params figure processed_figure name_mapping);
  field_loaders ←
    provide_field_loaders mediator request (fields processed_figure) ∅;
  let extraction_gen :=
    _create_extraction_gen request figure name_mapping field_loaders in
  mret (extraction_gen, figure).

Definition make_input_creation (mediator : Mediator)
    (request : LoaderRequest) (figure : InputFigure) : M CodeGenerator :=
  mret (BuiltinInputCreationGen figure).

(** *** ModelLoaderProvider *)

Record ModelLoaderProvider : Type := {
  name_sanitizer : string -> string;
  extraction_maker :
    Mediator -> LoaderRequest -> M (CodeGenerator * InputFigure);
  creation_maker :
    Mediator -> LoaderRequest -> InputFigure -> M CodeGenerator;
}.

Definition _get_closure_name (self : ModelLoaderProvider)
    (request : LoaderRequest) : string :=
  let name :=
    match req_type request with
    | TpClass __name__ => __name__
    | TpOther str => str
    end in
  let s_name := name_sanitizer self name in
  let s_name := if negb (String.eqb s_name "") then "_" ++ s_name else s_name in
  "model_loader" ++ s_name.

Definition _get_file_name (self : ModelLoaderProvider)
    (request : LoaderRequest) : string :=
  _get_closure_name self request.

Definition _get_compiler : Compiler := BasicClosureCompiler.

Definition _get_binder : M loc := new (ObjVarBinder {| issued := [] |}).

Definition _provide_loader (self : ModelLoaderProvider)
    (mediator : Mediator) (request : LoaderRequest) : M Loader :=
  '(extraction_gen, figure) ← extraction_maker self mediator request;
  creation_gen ← creation_maker self mediator request figure;
  code_gen_hook ←
    try_except (provide mediator CodeGenHookRequest)
      (fun e =>
         match e with
         | CannotProvide => mret stub_code_gen_hook
         | _ => raise e
         end);
  binder ← _get_binder;
  ctx_namespace ← new (ObjNamespace {| dict := ∅ |});
  extraction_code_builder ←
    call_generator Extraction extraction_gen binder ctx_namespace;
  creation_code_builder ←
    call_generator Creation creation_gen binder ctx_namespace;
  call_compile {|
    compiler := _get_compiler;
    code_gen_hook := code_gen_hook;
    binder := binder;
    namespace := ctx_namespace;
    body_builders := [extraction_code_builder; creation_code_builder];
    closure_name := _get_closure_name self request;
    file_name := _get_file_name self request;
  |}.

(** *** How a build runs *)

Implicit Types (mediator : Mediator) (request : LoaderRequest).
Implicit Types (figure processed : InputFigure) (name_mapping : InputNameMapping).
Implicit Types (self : ModelLoaderProvider) (w : World).

(** The events a run adds to the trace it starts from. *)
Definition new_events (w w' : World) : list Event :=
  drop (length (trace w)) (trace w').

(** The world once the figure and the name mapping were asked for. *)
Definition asked (request : LoaderRequest) (figure : InputFigure) (w : World)
  : World :=
  log (EvProvide (InputNameMappingRequest (req_type request) figure))
    (log (EvProvide (InputFigureRequest (req_type request))) w).

(** The three validation passes of [__call__], in the order it runs
    them ([_process_figure], then [_validate_params]). *)
Definition validate (figure : InputFigure) (name_mapping : InputNameMapping)
  : result InputFigure :=
  match _process_figure figure name_mapping with
  | Raise e => Raise e
  | Ok processed_figure =>
      match _validate_params figure processed_figure name_mapping with
      | Raise e => Raise e
      | Ok _ => Ok processed_figure
      end
  end.

Lemma nonempty_true {A} (l : list A) : nonempty l = true <-> l <> [].
Proof. by destruct l. Qed.

Lemma nonempty_false {A} (l : list A) : nonempty l = false <-> l = [].
Proof. by destruct l. Qed.

Lemma new_events_app w w' l :
  trace w' = (trace w ++ l)%list -> new_events w w' = l.
Proof. unfold new_events. intros ->. by rewrite drop_app_length. Qed.

Lemma BuiltinInputExtractionMaker_call_run mediator request figure name_mapping w :
  mediator (InputFigureRequest (req_type request)) = Ok figure ->
  mediator (InputNameMappingRequest (req_type request) figure) = Ok name_mapping ->
  BuiltinInputExtractionMaker_call mediator request w
  = match validate figure name_mapping with
    | Raise e => (Raise e, asked request figure w)
    | Ok processed_figure =>
        match provide_field_loaders mediator request
                (fields processed_figure) ∅ (asked request figure w) with
        | (Ok field_loaders, w') =>
            (Ok (_create_extraction_gen request figure name_mapping field_loaders,
                 figure), w')
        | (Raise e, w') => (Raise e, w')
        end
    end.
Proof.
  intros Hfig Hmap.
  unfold BuiltinInputExtractionMaker_call, validate, mbind, M_bind, provide, lift, asked.
  rewrite Hfig, Hmap.
  destruct (_process_figure figure name_mapping) as [processed|e]; [|done].
  destruct (_validate_params figure processed name_mapping) as [[]|e]; [|done].
  by destruct (provide_field_loaders _ _ _ _ _) as [[fl|e] w'].
Qed.

Lemma _provide_loader_maker_fails self mediator request w e w' :
  extraction_maker self mediator request w = (Raise e, w') ->
  _provide_loader self mediator request w = (Raise e, w').
Proof. intros H. unfold _provide_loader, mbind, M_bind. by rewrite H. Qed.

(** A configuration found invalid ends the build where it stands:
    the figure and the name mapping were asked for, nothing else
    happened. *)
Lemma invalid_configuration_run self mediator request figure name_mapping w e :
  extraction_maker self = BuiltinInputExtractionMaker_call ->
  mediator (InputFigureRequest (req_type request)) = Ok figure ->
  mediator (InputNameMappingRequest (req_type request) figure) = Ok name_mapping ->
  validate figure name_mapping = Raise e ->
  _provide_loader self mediator request w = (Raise e, asked request figure w).
Proof.
  intros Hself Hfig Hmap Hval. apply _provide_loader_maker_fails.
  rewrite Hself, (BuiltinInputExtractionMaker_call_run _ _ _ _ _ Hfig Hmap).
  by rewrite Hval.
Qed.

(** *** Validation *)

Lemma elem_of_skipped_required_fields figure name_mapping (n : string) :
  n ∈ skipped_required_fields figure (get_skipped_fields figure name_mapping)
  <-> exists field, field ∈ fields figure /\ name field = n
                    /\ is_required field = true
                    /\ ~ has_leaf n (crown name_mapping).
Proof.
  unfold skipped_required_fields. rewrite elem_of_map_name. split.
  - intros (field & Hin & Hn).
    apply elem_of_filter_bool in Hin as [Hin Hc].
    apply andb_true_iff in Hc as [Hr Hs].
    apply bool_decide_eq_true, elem_of_get_skipped_fields in Hs as [_ Hs].
    exists field. by subst.
  - intros (field & Hin & Hn & Hr & Hl). exists field. split; [|done].
    apply elem_of_filter_bool. split; [done|].
    rewrite Hr. simpl. apply bool_decide_eq_true, elem_of_get_skipped_fields.
    subst. eauto.
Qed.

(** C2: when some required field has no leaf in the crown, building
    the loader fails with the error that lists every such field (all
    the required fields without a leaf, in the order of the shape);
    when there is none, the check is passed and the reduced shape is
    returned. *)
Theorem skipped_required_fields_reported
    self mediator request figure name_mapping w :
  extraction_maker self = BuiltinInputExtractionMaker_call ->
  mediator (InputFigureRequest (req_type request)) = Ok figure ->
  mediator (InputNameMappingRequest (req_type request) figure) = Ok name_mapping ->
  let skipped_fields := get_skipped_fields figure name_mapping in
  let offenders := skipped_required_fields figure skipped_fields in
  (forall n, n ∈ offenders <->
             exists field, field ∈ fields figure /\ name field = n
                           /\ is_required field = true
                           /\ ~ has_leaf n (crown name_mapping))
  /\ (offenders <> [] ->
      (_provide_loader self mediator request w).1
      = Raise (ValueError [Text "Required fields "; Names offenders;
                           Text " are skipped"]))
  /\ (offenders = [] ->
      _process_figure figure name_mapping
      = Ok (strip_figure figure skipped_fields)).
Proof.
  intros Hself Hfig Hmap. cbv zeta. split; [|split].
  - apply elem_of_skipped_required_fields.
  - intros Hne.
    erewrite invalid_configuration_run; [done..|].
    unfold validate, _process_figure.
    apply nonempty_true in Hne. by rewrite Hne.
  - intros Hnil. unfold _process_figure. by rewrite Hnil.
Qed.

(** The outcome of the three passes, case by case. *)
Definition collect_without_extra figure name_mapping : bool :=
  bool_decide (extra figure = None) && has_collect_policy (crown name_mapping).

Definition optional_at_list figure name_mapping : list string :=
  get_optional_fields_at_list_crown
    (fields_map (fields (strip_figure figure (get_skipped_fields figure name_mapping))))
    (crown name_mapping).

Lemma validate_cases figure name_mapping :
  let skipped_fields := get_skipped_fields figure name_mapping in
  let skipped_required := skipped_required_fields figure skipped_fields in
  let extra_targets := get_extra_targets_at_crown figure name_mapping in
  let optional := optional_at_list figure name_mapping in
  validate figure name_mapping =
    if nonempty skipped_required then
      Raise (ValueError [Text "Required fields "; Names skipped_required;
                         Text " are skipped"])
    else if collect_without_extra figure name_mapping then
      Raise (ValueError
               [Text "Cannot create loader that collect extra data if InputFigure does not take extra data"])
    else if nonempty extra_targets then
      Raise (ValueError [Text "Extra targets "; Names extra_targets;
                         Text " are found at crown"])
    else if nonempty optional then
      Raise (ValueError [Text "Optional fields "; Names optional;
                         Text " are found at list crown"])
    else Ok (strip_figure figure skipped_fields).
Proof.
  cbv zeta.
  unfold validate, _process_figure, _validate_params,
    collect_without_extra, optional_at_list.
  destruct (nonempty (skipped_required_fields _ _)); [done|].
  destruct (_ && _); [done|].
  destruct (nonempty (get_extra_targets_at_crown _ _)); [done|].
  by destruct (nonempty (get_optional_fields_at_list_crown _ _)).
Qed.

Lemma validate_raises_value_error figure name_mapping e :
  validate figure name_mapping = Raise e -> exists msg, e = ValueError msg.
Proof.
  rewrite validate_cases. cbv zeta.
  repeat (case_match; [intros [= <-]; eauto|]). done.
Qed.

Lemma validate_ok figure name_mapping processed :
  validate figure name_mapping = Ok processed
  <-> processed = strip_figure figure (get_skipped_fields figure name_mapping)
      /\ skipped_required_fields figure (get_skipped_fields figure name_mapping) = []
      /\ collect_without_extra figure name_mapping = false
      /\ get_extra_targets_at_crown figure name_mapping = []
      /\ optional_at_list figure name_mapping = [].
Proof.
  rewrite validate_cases. cbv zeta. rewrite <- !nonempty_false.
  repeat (case_match; [split; [done|intros (? & ? & ? & ? & ?); congruence]|]).
  split; [by intros [= <-]|by intros (-> & _)].
Qed.

Lemma collect_without_extra_true figure name_mapping :
  collect_without_extra figure name_mapping = true
  <-> extra figure = None /\ has_collect_policy (crown name_mapping) = true.
Proof.
  unfold collect_without_extra.
  by rewrite andb_true_iff, bool_decide_eq_true.
Qed.

(** The steps that come after validation: asking for the loader of a
    field, running a generator, compiling. *)
Definition build_step (ev : Event) : bool :=
  match ev with
  | EvProvide (LoaderFieldRequest _ _ _ _) => true
  | EvProvide _ => false
  | EvGenerate _ _ _ _ => true
  | EvCompile _ => true
  end.

(** C3: when the skipped-required pass, the extra-target pass (either
    of its two tests) or the optional-at-list pass fails, the build
    ends with that error after asking only for the figure and the
    name mapping: no loader of a field was requested, no generator
    ran, nothing was compiled, no object was created. *)
Theorem validation_failure_aborts_build
    self mediator request figure name_mapping w :
  extraction_maker self = BuiltinInputExtractionMaker_call ->
  mediator (InputFigureRequest (req_type request)) = Ok figure ->
  mediator (InputNameMappingRequest (req_type request) figure) = Ok name_mapping ->
  skipped_required_fields figure (get_skipped_fields figure name_mapping) <> []
  \/ (extra figure = None /\ has_collect_policy (crown name_mapping) = true)
  \/ get_extra_targets_at_crown figure name_mapping <> []
  \/ optional_at_list figure name_mapping <> [] ->
  let run := _provide_loader self mediator request w in
  (exists msg, run.1 = Raise (ValueError msg))
  /\ heap run.2 = heap w
  /\ new_events w run.2
     = [EvProvide (InputFigureRequest (req_type request));
        EvProvide (InputNameMappingRequest (req_type request) figure)]
  /\ Forall (fun ev => build_step ev = false) (new_events w run.2).
Proof.
  intros Hself Hfig Hmap Hfail. cbv zeta.
  destruct (validate figure name_mapping) as [processed|e] eqn:Hval.
  { exfalso. apply validate_ok in Hval as (_ & H1 & H2 & H3 & H4).
    destruct Hfail as [H|[[He Hp]|[H|H]]]; [done| |done|done].
    unfold collect_without_extra in H2. rewrite He, Hp in H2. done. }
  rewrite (invalid_configuration_run _ _ _ _ _ _ _ Hself Hfig Hmap Hval).
  destruct (validate_raises_value_error _ _ _ Hval) as [msg ->].
  assert (new_events w (asked request figure w)
          = [EvProvide (InputFigureRequest (req_type request));
             EvProvide (InputNameMappingRequest (req_type request) figure)])
    as Hnew.
  { apply new_events_app. simpl. by rewrite <- app_assoc. }
  simpl. rewrite Hnew. repeat split; eauto.
Qed.

(** C5: a shape that takes no extra data, paired with a crown that
    has the collect policy (it declares an extra target, see
    [has_collect_policy_true]), never yields a loader: the build fails
    with a ValueError, the one about collecting extra data unless a
    required field was skipped too; so whenever validation passes a
    crown with the collect policy, the shape's policy is collect. *)
Theorem collect_policy_needs_extra
    self mediator request figure name_mapping w :
  extraction_maker self = BuiltinInputExtractionMaker_call ->
  mediator (InputFigureRequest (req_type request)) = Ok figure ->
  mediator (InputNameMappingRequest (req_type request) figure) = Ok name_mapping ->
  has_collect_policy (crown name_mapping) = true ->
  (extra figure = None ->
     (exists msg,
         (_provide_loader self mediator request w).1 = Raise (ValueError msg))
     /\ (skipped_required_fields figure (get_skipped_fields figure name_mapping) = [] ->
         (_provide_loader self mediator request w).1
         = Raise (ValueError
                    [Text "Cannot create loader that collect extra data if InputFigure does not take extra data"])))
  /\ (forall processed,
         validate figure name_mapping = Ok processed ->
         extra figure = Some ExtraCollect).
Proof.
  intros Hself Hfig Hmap Hdecl. split.
  - intros Hnone.
    assert (collect_without_extra figure name_mapping = true) as Hc
        by by apply collect_without_extra_true.
    pose proof (validate_cases figure name_mapping) as Hval.
    cbv zeta in Hval. rewrite Hc in Hval.
    destruct (nonempty (skipped_required_fields _ _)) eqn:Hs.
    + erewrite invalid_configuration_run; [|done..]. simpl.
      split; [eauto|]. intros Hnil. by rewrite Hnil in Hs.
    + erewrite invalid_configuration_run; [|done..]. simpl.
      split; [eauto|done].
  - intros processed Hval.
    apply validate_ok in Hval as (_ & _ & Hc & _).
    destruct (extra figure) as [[]|] eqn:He; [done|].
    assert (collect_without_extra figure name_mapping = true) as Hc'
        by by apply collect_without_extra_true.
    congruence.
Qed.

(** With unique field names the dict of fields holds each field
    under its name. *)
Lemma fields_map_acc (l : list InputField) (acc : gmap string InputField) n f :
  NoDup (List.map name l) ->
  foldl (fun m field => <[name field := field]> m) acc l !! n = Some f
  <-> (f ∈ l /\ name f = n) \/ ((n ∉ List.map name l) /\ acc !! n = Some f).
Proof.
  revert acc. induction l as [|g l IH]; intros acc Hnd; simpl.
  - split.
    + intros H. right. split; [apply not_elem_of_nil|done].
    + intros [[H _]|[_ H]]; [by apply elem_of_nil in H|done].
  - apply NoDup_cons in Hnd as [Hg Hnd]. rewrite (IH _ Hnd).
    rewrite elem_of_cons, not_elem_of_cons. split.
    + intros [[Hf Hn]|[Hn Hins]]; [left; split; [by right|done]|].
      destruct (decide (name g = n)) as [<-|Hne].
      * rewrite lookup_insert_eq in Hins. injection Hins as <-.
        left. split; [by left|done].
      * rewrite lookup_insert_ne in Hins by done. right. by repeat split.
    + intros [[[->|Hf] Hn]|[[Hne Hn] Hacc]].
      * right. subst n. split; [done|]. by rewrite lookup_insert_eq.
      * by left.
      * right. split; [done|]. by rewrite lookup_insert_ne.
Qed.

Lemma fields_map_lookup (l : list InputField) n f :
  NoDup (List.map name l) ->
  fields_map l !! n = Some f <-> f ∈ l /\ name f = n.
Proof.
  intros Hnd. unfold fields_map. rewrite (fields_map_acc _ _ _ _ Hnd).
  rewrite lookup_empty. split; [|by left].
  by intros [H|[_ H]].
Qed.

Lemma NoDup_names_filter (p : InputField -> bool) (l : list InputField) :
  NoDup (List.map name l) -> NoDup (List.map name (List.filter p l)).
Proof.
  induction l as [|g l IH]; simpl; [done|].
  rewrite NoDup_cons. intros [Hg Hnd]. destruct (p g); simpl; [|by apply IH].
  apply NoDup_cons. split; [|by apply IH].
  rewrite elem_of_map_name in *. intros (f & Hf & Hn). apply Hg.
  apply elem_of_filter_bool in Hf as [Hf _]. eauto.
Qed.

(** The optional fields found at list positions are looked up among
    the fields left after stripping; no such field was stripped. *)
Lemma elem_of_optional_at_list figure name_mapping (n : string) :
  NoDup (List.map name (fields figure)) ->
  n ∈ optional_at_list figure name_mapping
  <-> leaf_at_list n (crown name_mapping)
      /\ exists field, field ∈ fields figure /\ name field = n
                        /\ is_required field = false.
Proof.
  intros Hnd. unfold optional_at_list.
  rewrite elem_of_optional_fields_at_list_crown. unfold optional_in.
  assert (forall c, leaf_at_list n c -> has_leaf n c) as Hleaf.
  { induction 1; [|by eapply has_leaf_dict|by eapply has_leaf_list].
    eapply has_leaf_list; [done|constructor]. }
  split.
  - intros [Hl (field & Hf & Hr)]. split; [done|].
    apply fields_map_lookup in Hf as [Hf Hn];
      [|by apply NoDup_names_filter].
    apply elem_of_strip_figure in Hf as [Hf _]. eauto.
  - intros [Hl (field & Hf & Hn & Hr)]. split; [done|].
    exists field. split; [|done].
    apply fields_map_lookup; [by apply NoDup_names_filter|].
    split; [|done]. apply elem_of_strip_figure. split; [done|].
    rewrite elem_of_get_skipped_fields. intros [_ Hno]. subst n. eauto.
Qed.

(** C4: once the earlier checks are passed, the build fails exactly
    when some list position holds a leaf that names an optional
    field, and the error lists every such field; a crown whose list
    positions name required fields only passes this check, and with
    it validation. *)
Theorem optional_fields_at_list_crown_reported
    self mediator request figure name_mapping w :
  extraction_maker self = BuiltinInputExtractionMaker_call ->
  mediator (InputFigureRequest (req_type request)) = Ok figure ->
  mediator (InputNameMappingRequest (req_type request) figure) = Ok name_mapping ->
  NoDup (List.map name (fields figure)) ->
  skipped_required_fields figure (get_skipped_fields figure name_mapping) = [] ->
  collect_without_extra figure name_mapping = false ->
  get_extra_targets_at_crown figure name_mapping = [] ->
  let offenders := optional_at_list figure name_mapping in
  (forall n, n ∈ offenders <->
             leaf_at_list n (crown name_mapping)
             /\ exists field, field ∈ fields figure /\ name field = n
                               /\ is_required field = false)
  /\ (offenders <> [] ->
      (_provide_loader self mediator request w).1
      = Raise (ValueError [Text "Optional fields "; Names offenders;
                           Text " are found at list crown"]))
  /\ ((forall n field, leaf_at_list n (crown name_mapping) ->
                       field ∈ fields figure -> name field = n ->
                       is_required field = true) ->
      offenders = []
      /\ validate figure name_mapping
         = Ok (strip_figure figure (get_skipped_fields figure name_mapping))).
Proof.
  intros Hself Hfig Hmap Hnd H1 H2 H3. cbv zeta.
  pose proof (validate_cases figure name_mapping) as Hval. cbv zeta in Hval.
  rewrite H1, H2, H3 in Hval. simpl in Hval.
  split; [|split].
  - intros n. by apply elem_of_optional_at_list.
  - intros Hne. apply nonempty_true in Hne. rewrite Hne in Hval.
    by erewrite invalid_configuration_run.
  - intros Hreq.
    assert (optional_at_list figure name_mapping = []) as Hnil.
    { destruct (optional_at_list figure name_mapping) as [|n l] eqn:E; [done|].
      assert (n ∈ optional_at_list figure name_mapping) as Hn
          by (rewrite E; by left).
      apply elem_of_optional_at_list in Hn as (Hl & field & Hf & Hn & Hr);
        [|done].
      rewrite (Hreq _ _ Hl Hf Hn) in Hr. done. }
    split; [done|]. by rewrite Hnil in Hval.
Qed.

(** *** Resolving the loaders of the fields *)

Definition field_requests (request : LoaderRequest) (l : list InputField)
  : list Event :=
  List.map (fun field => EvProvide (field_request request field)) l.

(** The loop asks for the fields in order and stops at the first
    request the mediator fails; it touches no object. *)
Lemma provide_field_loaders_run mediator request (l : list InputField)
    (acc : gmap string Loader) w :
  let run := provide_field_loaders mediator request l acc w in
  heap run.2 = heap w
  /\ exists k,
      trace run.2 = (trace w ++ field_requests request (take k l))%list
      /\ match run.1 with
         | Ok field_loaders =>
             k = length l
             /\ dom field_loaders = dom acc ∪ list_to_set (List.map name l)
             /\ (forall n loader,
                    field_loaders !! n = Some loader ->
                    acc !! n = Some loader
                    \/ exists field, field ∈ l /\ name field = n
                          /\ mediator (field_request request field) = Ok loader)
         | Raise e =>
             exists field, field ∈ l
                           /\ mediator (field_request request field) = Raise e
         end.
Proof.
  cbv zeta. revert acc w. induction l as [|field l IH]; intros acc w; simpl.
  - split; [done|]. exists 0. simpl. rewrite app_nil_r.
    split; [done|]. split; [done|].
    split; [by rewrite union_empty_r_L|]. eauto.
  - unfold mbind, M_bind, provide.
    destruct (mediator (field_request request field)) as [loader|e] eqn:E;
      change (response (field_request request field)) with Loader in *.
    + destruct (IH (<[name field := loader]> acc)
                  (log (EvProvide (field_request request field)) w))
        as (Hheap & k & Htrace & Hres).
      simpl. split; [done|]. exists (S k). split.
      { rewrite Htrace. simpl. by rewrite <- app_assoc. }
      destruct (provide_field_loaders _ _ _ _ _).1 as [field_loaders|e'].
      * destruct Hres as (-> & Hdom & Hlook). split; [done|]. split.
        { rewrite Hdom, dom_insert_L. set_solver. }
        intros n loader' Hn. destruct (Hlook _ _ Hn) as [Hacc|(g & Hg & Hgn & Hm)].
        -- destruct (decide (name field = n)) as [<-|Hne].
           ++ rewrite lookup_insert_eq in Hacc. injection Hacc as <-.
              right. exists field. split; [by left|done].
           ++ rewrite lookup_insert_ne in Hacc by done. by left.
        -- right. exists g. split; [by right|done].
      * destruct Hres as (g & Hg & Hm). exists g. split; [by right|done].
    + simpl. split; [done|]. exists 1. simpl.
      split; [done|]. exists field. split; [by left|done].
Qed.

Lemma elem_of_field_requests request (l : list InputField) (field : InputField) :
  EvProvide (field_request request field) ∈ field_requests request l
  <-> field ∈ l.
Proof.
  unfold field_requests. rewrite list_elem_of_In, in_map_iff.
  setoid_rewrite <- list_elem_of_In. split.
  - intros (g & Heq & Hg). injection Heq as -> _. done.
  - intros H. by exists field.
Qed.

(** C7: in a build that passes validation the maker asks the mediator
    for the loader of each field left after removing the skipped ones,
    once each and in the order of the shape, stopping only if a request
    fails; it never asks for a skipped field; when every request is
    answered it returns the extraction generator made from the loaders,
    stored under the names of exactly those fields. *)
Theorem field_loaders_requested
    mediator request figure name_mapping processed w :
  mediator (InputFigureRequest (req_type request)) = Ok figure ->
  mediator (InputNameMappingRequest (req_type request) figure) = Ok name_mapping ->
  validate figure name_mapping = Ok processed ->
  let skipped_fields := get_skipped_fields figure name_mapping in
  let run := BuiltinInputExtractionMaker_call mediator request w in
  (forall field, field ∈ fields processed
                 <-> field ∈ fields figure /\ name field ∉ skipped_fields)
  /\ (exists k,
        new_events w run.2
        = EvProvide (InputFigureRequest (req_type request))
            :: EvProvide (InputNameMappingRequest (req_type request) figure)
            :: field_requests request (take k (fields processed))
        /\ (is_ok run.1 = true -> k = length (fields processed)))
  /\ (forall field, name field ∈ skipped_fields ->
                    EvProvide (field_request request field) ∉ new_events w run.2)
  /\ ((forall field, field ∈ fields processed ->
                     is_ok (mediator (field_request request field)) = true) ->
      exists field_loaders,
        run.1 = Ok (_create_extraction_gen request figure name_mapping field_loaders,
                    figure)
        /\ dom field_loaders = list_to_set (List.map name (fields processed))
        /\ (forall n loader,
               field_loaders !! n = Some loader ->
               exists field, field ∈ fields processed /\ name field = n
                 /\ mediator (field_request request field) = Ok loader)).
Proof.
  clear BuiltinInputCreationGen.
  intros Hfig Hmap Hval. cbv zeta.
  rewrite (BuiltinInputExtractionMaker_call_run _ _ _ _ _ Hfig Hmap), Hval.
  pose proof (proj1 (validate_ok _ _ _) Hval) as (Hproc & _).
  assert (forall field, field ∈ fields processed
            <-> field ∈ fields figure
                /\ name field ∉ get_skipped_fields figure name_mapping)
    as Hfields.
  { intros field. rewrite Hproc. apply elem_of_strip_figure. }
  destruct (provide_field_loaders_run mediator request (fields processed) ∅
              (asked request figure w)) as (Hheap & k & Htrace & Hres).
  assert (new_events w
            (provide_field_loaders mediator request (fields processed) ∅
               (asked request figure w)).2
          = EvProvide (InputFigureRequest (req_type request))
              :: EvProvide (InputNameMappingRequest (req_type request) figure)
              :: field_requests request (take k (fields processed))) as Hnew.
  { apply new_events_app. rewrite Htrace. simpl. by rewrite <- !app_assoc. }
  destruct (provide_field_loaders _ _ _ _ _) as [[field_loaders|e] w'] eqn:Hrun;
    simpl in *.
  - destruct Hres as (-> & Hdom & Hlook).
    split; [done|]. split; [by exists (length (fields processed))|]. split.
    + intros field Hskip. rewrite Hnew, !not_elem_of_cons.
      split; [done|]. split; [done|].
      rewrite elem_of_field_requests. intros Hin. apply subseteq_take in Hin.
      by apply Hfields in Hin as [_ Hin].
    + intros _. exists field_loaders. split; [done|]. split.
      * rewrite Hdom. set_solver.
      * intros n loader Hn. destruct (Hlook _ _ Hn) as [Hacc|H]; [|done].
        by rewrite lookup_empty in Hacc.
  - split; [done|]. split; [by exists k|]. split.
    + intros field Hskip. rewrite Hnew, !not_elem_of_cons.
      split; [done|]. split; [done|].
      rewrite elem_of_field_requests. intros Hin. apply subseteq_take in Hin.
      by apply Hfields in Hin as [_ Hin].
    + intros Hall. destruct Hres as (field & Hin & Hm).
      specialize (Hall _ Hin). by rewrite Hm in Hall.
Qed.

(** *** Generation and compilation *)

(** The hook a build goes on with, given what the mediator answered
    to [CodeGenHookRequest]: the try block of [_provide_loader]. *)
Definition resolved_hook (answer : result CodeGenHook) : result CodeGenHook :=
  match answer with
  | Ok hook => Ok hook
  | Raise CannotProvide => Ok stub_code_gen_hook
  | Raise e => Raise e
  end.

(** The rest of [_provide_loader] once the generators and the hook
    are known: its last five statements. *)
Definition synthesize self request
    (extraction_gen creation_gen : CodeGenerator) (hook : CodeGenHook)
  : M Loader :=
  binder ← _get_binder;
  ctx_namespace ← new (ObjNamespace {| dict := ∅ |});
  extraction_code_builder ←
    call_generator Extraction extraction_gen binder ctx_namespace;
  creation_code_builder ←
    call_generator Creation creation_gen binder ctx_namespace;
  call_compile {|
    compiler := _get_compiler;
    code_gen_hook := hook;
    binder := binder;
    namespace := ctx_namespace;
    body_builders := [extraction_code_builder; creation_code_builder];
    closure_name := _get_closure_name self request;
    file_name := _get_file_name self request;
  |}.

Lemma _provide_loader_run self mediator request w
    (extraction_gen creation_gen : CodeGenerator) figure w1 w2 :
  extraction_maker self mediator request w = (Ok (extraction_gen, figure), w1) ->
  creation_maker self mediator request figure w1 = (Ok creation_gen, w2) ->
  _provide_loader self mediator request w
  = match resolved_hook (mediator CodeGenHookRequest) with
    | Ok hook =>
        synthesize self request extraction_gen creation_gen hook
          (log (EvProvide CodeGenHookRequest) w2)
    | Raise e => (Raise e, log (EvProvide CodeGenHookRequest) w2)
    end.
Proof.
  intros He Hc.
  unfold _provide_loader, synthesize, mbind, M_bind, try_except, provide.
  rewrite He, Hc.
  by destruct (mediator CodeGenHookRequest) as [hook|[]].
Qed.

(** The two references a build creates: the binder, then the
    namespace, both new and distinct. *)
Definition binder_ref (w : World) : loc := fresh (dom (heap w)).
Definition namespace_ref (w : World) : loc :=
  fresh (dom (<[binder_ref w := ObjVarBinder {| issued := [] |}]> (heap w))).
Definition heap_with_objects (w : World) : gmap nat Obj :=
  <[namespace_ref w := ObjNamespace {| dict := ∅ |}]>
    (<[binder_ref w := ObjVarBinder {| issued := [] |}]> (heap w)).

Definition args_of self request (hook : CodeGenHook) (w : World)
    (extraction_code_builder creation_code_builder : CodeBuilder)
  : CompileArgs :=
  {| compiler := BasicClosureCompiler;
     code_gen_hook := hook;
     binder := binder_ref w;
     namespace := namespace_ref w;
     body_builders := [extraction_code_builder; creation_code_builder];
     closure_name := _get_closure_name self request;
     file_name := _get_closure_name self request |}.

Lemma refs_distinct (w : World) :
  (binder_ref w ∉ dom (heap w))
  /\ (namespace_ref w ∉ dom (heap w))
  /\ binder_ref w <> namespace_ref w.
Proof.
  pose proof (is_fresh (dom (heap w))) as Hb.
  pose proof (is_fresh (dom (<[binder_ref w :=
                                 ObjVarBinder {| issued := [] |}]> (heap w))))
    as Hn.
  change (fresh (dom (heap w))) with (binder_ref w) in Hb.
  change (fresh (dom (<[binder_ref w := ObjVarBinder {| issued := [] |}]> (heap w))))
    with (namespace_ref w) in Hn.
  revert Hb Hn. generalize (binder_ref w) (namespace_ref w). intros b ns Hb Hn.
  rewrite dom_insert_L, elem_of_union, elem_of_singleton in Hn.
  split; [done|]. split.
  - intros H. apply Hn. by right.
  - intros H. apply Hn. left. congruence.
Qed.

Lemma synthesize_run self request (extraction_gen creation_gen : CodeGenerator)
    (hook : CodeGenHook) w :
  let b := binder_ref w in
  let ns := namespace_ref w in
  synthesize self request extraction_gen creation_gen hook w
  = match extraction_gen b ns (heap_with_objects w) with
    | (Raise e, h1) =>
        (Raise e,
         {| heap := h1;
            trace := (trace w ++ [EvGenerate Extraction b ns (Raise e)])%list |})
    | (Ok ecode, h1) =>
        match creation_gen b ns h1 with
        | (Raise e, h2) =>
            (Raise e,
             {| heap := h2;
                trace := (trace w ++ [EvGenerate Extraction b ns (Ok ecode);
                                      EvGenerate Creation b ns (Raise e)])%list |})
        | (Ok ccode, h2) =>
            let args := args_of self request hook w ecode ccode in
            ((compile_closure_with_globals_capturing args h2).1,
             {| heap := (compile_closure_with_globals_capturing args h2).2;
                trace := (trace w ++ [EvGenerate Extraction b ns (Ok ecode);
                                      EvGenerate Creation b ns (Ok ccode);
                                      EvCompile args])%list |})
        end
    end.
Proof.
  cbv zeta.
  unfold synthesize, mbind, M_bind, _get_binder, new, call_generator,
    call_compile, heap_with_objects, namespace_ref, binder_ref, args_of,
    _get_file_name, _get_compiler.
  simpl.
  destruct (extraction_gen _ _ _) as [[ecode|e] h1]; [|done]. simpl.
  destruct (creation_gen _ _ _) as [[ccode|e] h2]; [|by rewrite <- app_assoc].
  simpl. destruct (compile_closure_with_globals_capturing _ _) as [r h3].
  simpl. by rewrite <- !app_assoc.
Qed.

(** Membership in a trace written out event by event. *)
Ltac in_events H :=
  repeat (apply elem_of_cons in H as [H|H]);
  try (by apply elem_of_nil in H); try discriminate H.

(** What a build adds to the trace once both makers have returned,
    by the way it ends. *)
Lemma _provide_loader_events self mediator request w
    (extraction_gen creation_gen : CodeGenerator) figure w1 w2 :
  extraction_maker self mediator request w = (Ok (extraction_gen, figure), w1) ->
  creation_maker self mediator request figure w1 = (Ok creation_gen, w2) ->
  let run := _provide_loader self mediator request w in
  let b := binder_ref w2 in
  let ns := namespace_ref w2 in
  match resolved_hook (mediator CodeGenHookRequest) with
  | Raise e =>
      run.1 = Raise e
      /\ new_events w2 run.2 = [EvProvide CodeGenHookRequest]
  | Ok hook =>
      match extraction_gen b ns (heap_with_objects w2) with
      | (Raise e, h1) =>
          run.1 = Raise e
          /\ new_events w2 run.2
             = [EvProvide CodeGenHookRequest; EvGenerate Extraction b ns (Raise e)]
      | (Ok ecode, h1) =>
          match creation_gen b ns h1 with
          | (Raise e, h2) =>
              run.1 = Raise e
              /\ new_events w2 run.2
                 = [EvProvide CodeGenHookRequest;
                    EvGenerate Extraction b ns (Ok ecode);
                    EvGenerate Creation b ns (Raise e)]
          | (Ok ccode, h2) =>
              let args := args_of self request hook w2 ecode ccode in
              run.1 = (compile_closure_with_globals_capturing args h2).1
              /\ new_events w2 run.2
                 = [EvProvide CodeGenHookRequest;
                    EvGenerate Extraction b ns (Ok ecode);
                    EvGenerate Creation b ns (Ok ccode);
                    EvCompile args]
          end
      end
  end.
Proof.
  intros He Hc. cbv zeta.
  rewrite (_provide_loader_run _ _ _ _ _ _ _ _ _ He Hc).
  destruct (resolved_hook (mediator CodeGenHookRequest)) as [hook|e].
  - rewrite synthesize_run. cbv zeta.
    change (heap_with_objects (log (EvProvide CodeGenHookRequest) w2))
      with (heap_with_objects w2).
    change (binder_ref (log (EvProvide CodeGenHookRequest) w2))
      with (binder_ref w2).
    change (namespace_ref (log (EvProvide CodeGenHookRequest) w2))
      with (namespace_ref w2).
    destruct (extraction_gen _ _ _) as [[ecode|e] h1].
    + destruct (creation_gen _ _ _) as [[ccode|e] h2].
      * split; [done|]. apply new_events_app. simpl. by rewrite <- app_assoc.
      * split; [done|]. apply new_events_app. simpl. by rewrite <- app_assoc.
    + split; [done|]. apply new_events_app. simpl. by rewrite <- app_assoc.
  - split; [done|]. by apply new_events_app.
Qed.

(** C6: both generators are called with the same two references, the
    binder and the namespace the build has just created (two distinct
    new objects), the creation generator after the extraction
    generator and on the objects as it left them; the compiler is
    called at most once, exactly once in a build that returns a
    loader, with the extraction fragment followed by the creation
    fragment as its body, and what it returns is the loader. *)
Theorem generators_share_binder_and_namespace
    self mediator request w
    (extraction_gen creation_gen : CodeGenerator) figure w1 w2 :
  extraction_maker self mediator request w = (Ok (extraction_gen, figure), w1) ->
  creation_maker self mediator request figure w1 = (Ok creation_gen, w2) ->
  let run := _provide_loader self mediator request w in
  let events := new_events w2 run.2 in
  let b := binder_ref w2 in
  let ns := namespace_ref w2 in
  (forall role b' ns' emitted,
      EvGenerate role b' ns' emitted ∈ events -> b' = b /\ ns' = ns)
  /\ ((b ∉ dom (heap w2)) /\ (ns ∉ dom (heap w2)) /\ b <> ns)
  /\ (forall args,
        EvCompile args ∈ events ->
        exists ecode ccode h1 h2,
          extraction_gen b ns (heap_with_objects w2) = (Ok ecode, h1)
          /\ creation_gen b ns h1 = (Ok ccode, h2)
          /\ body_builders args = [ecode; ccode]
          /\ binder args = b /\ namespace args = ns
          /\ closure_name args = _get_closure_name self request
          /\ events = [EvProvide CodeGenHookRequest;
                       EvGenerate Extraction b ns (Ok ecode);
                       EvGenerate Creation b ns (Ok ccode);
                       EvCompile args]
          /\ run.1 = (compile_closure_with_globals_capturing args h2).1)
  /\ (forall loader, run.1 = Ok loader -> exists args, EvCompile args ∈ events).
Proof.
  intros He Hc. cbv zeta.
  pose proof (_provide_loader_events _ _ _ _ _ _ _ _ _ He Hc) as Hrun.
  cbv zeta in Hrun.
  split; [|split; [apply refs_distinct|]].
  - intros role b' ns' emitted Hin.
    destruct (resolved_hook _) as [hook|e].
    + destruct (extraction_gen _ _ _) as [[ecode|e] h1].
      * destruct (creation_gen _ _ _) as [[ccode|e] h2];
          destruct Hrun as [_ Hev]; rewrite Hev in Hin; in_events Hin;
          by injection Hin as -> -> -> ->.
      * destruct Hrun as [_ Hev]; rewrite Hev in Hin; in_events Hin.
        by injection Hin as -> -> -> ->.
    + destruct Hrun as [_ Hev]; rewrite Hev in Hin; in_events Hin.
  - destruct (resolved_hook _) as [hook|e].
    + destruct (extraction_gen _ _ _) as [[ecode|e] h1] eqn:Hegen.
      * destruct (creation_gen _ _ _) as [[ccode|e] h2] eqn:Hcgen;
          destruct Hrun as [Hres Hev]; rewrite Hev, Hres.
        -- split.
           ++ intros args Hin. in_events Hin. injection Hin as ->.
              exists ecode, ccode, h1, h2. by repeat split.
           ++ intros loader _. eexists. do 3 right. by left.
        -- split; [|done]. intros args Hin. in_events Hin.
      * destruct Hrun as [Hres Hev]; rewrite Hev, Hres.
        split; [|done]. intros args Hin. in_events Hin.
    + destruct Hrun as [Hres Hev]; rewrite Hev, Hres.
      split; [|done]. intros args Hin. in_events Hin.
Qed.

(** C8: if the mediator signals CannotProvide for the hook, the build
    goes on with the stub hook, which is the one then handed to the
    compiler; a hook it provides is used as it is; any other exception
    ends the build with that same exception, before any object is
    created or any generator runs. *)
Theorem code_gen_hook_default
    self mediator request w
    (extraction_gen creation_gen : CodeGenerator) figure w1 w2 :
  extraction_maker self mediator request w = (Ok (extraction_gen, figure), w1) ->
  creation_maker self mediator request figure w1 = (Ok creation_gen, w2) ->
  let run := _provide_loader self mediator request w in
  let asked_hook := log (EvProvide CodeGenHookRequest) w2 in
  (mediator CodeGenHookRequest = Raise CannotProvide ->
     run = synthesize self request extraction_gen creation_gen
             stub_code_gen_hook asked_hook
     /\ forall args, EvCompile args ∈ new_events w2 run.2 ->
                     code_gen_hook args = stub_code_gen_hook)
  /\ (forall hook,
        mediator CodeGenHookRequest = Ok hook ->
        run = synthesize self request extraction_gen creation_gen hook asked_hook
        /\ forall args, EvCompile args ∈ new_events w2 run.2 ->
                        code_gen_hook args = hook)
  /\ (forall e,
        mediator CodeGenHookRequest = Raise e ->
        e <> CannotProvide ->
        run = (Raise e, asked_hook)).
Proof.
  intros He Hc. cbv zeta.
  pose proof (_provide_loader_events _ _ _ _ _ _ _ _ _ He Hc) as Hrun.
  cbv zeta in Hrun.
  rewrite (_provide_loader_run _ _ _ _ _ _ _ _ _ He Hc) in *.
  assert (forall hook,
            resolved_hook (mediator CodeGenHookRequest) = Ok hook ->
            forall args,
              EvCompile args
                ∈ new_events w2
                    (synthesize self request extraction_gen creation_gen hook
                       (log (EvProvide CodeGenHookRequest) w2)).2 ->
              code_gen_hook args = hook) as Hhook.
  { intros hook Hres args Hin. rewrite Hres in Hrun.
    destruct (extraction_gen _ _ _) as [[ecode|e] h1].
    - destruct (creation_gen _ _ _) as [[ccode|e] h2];
        destruct Hrun as [_ Hev]; rewrite Hev in Hin; in_events Hin.
      by injection Hin as ->.
    - destruct Hrun as [_ Hev]; rewrite Hev in Hin; in_events Hin. }
  split; [|split].
  - intros Hm. rewrite Hm in *. simpl in *. split; [done|]. by apply Hhook.
  - intros hook Hm. rewrite Hm in *. simpl in *. split; [done|]. by apply Hhook.
  - intros e Hm Hne. rewrite Hm. by destruct e.
Qed.

(** *** Names of the compiled units *)

(** The name [_get_closure_name] starts from: [tp.__name__] of a class,
    [str(tp)] of anything else. *)
Definition type_name (tp : TypeHint) : string :=
  match tp with
  | TpClass __name__ => __name__
  | TpOther str => str
  end.

(** X5: two requests get the same closure name exactly when their type
    names are sanitized to the same text, so units of types the
    sanitizer keeps apart never share a name; the bare name
    "model_loader" is given exactly when nothing is left of the type
    name; the file name is the closure name. *)
Theorem closure_name_follows_sanitized_name self (r1 r2 : LoaderRequest) :
  (_get_closure_name self r1 = _get_closure_name self r2
   <-> name_sanitizer self (type_name (req_type r1))
       = name_sanitizer self (type_name (req_type r2)))
  /\ (_get_closure_name self r1 = "model_loader"
      <-> name_sanitizer self (type_name (req_type r1)) = "")
  /\ _get_file_name self r1 = _get_closure_name self r1.
Proof.
  unfold _get_file_name, _get_closure_name.
  fold (type_name (req_type r1)). fold (type_name (req_type r2)).
  destruct (name_sanitizer self (type_name (req_type r1))) as [|a1 s1];
    destruct (name_sanitizer self (type_name (req_type r2))) as [|a2 s2];
    simpl; repeat split; intros H;
    cbv [String.append] in *; congruence.
Qed.

(** *** Which error a build ends with *)

(** X6: a build reports one problem only. The checks run in the order
    skipped required fields, collect policy without extra, extra
    targets at the crown, optional fields at list positions, and the
    build ends with the error of the first that fails, whatever the
    later ones would have found; the extra-targets error lists what
    [get_extra_targets_at_crown] returned. *)
Theorem first_failed_check_is_reported
    self mediator request figure name_mapping w :
  extraction_maker self = BuiltinInputExtractionMaker_call ->
  mediator (InputFigureRequest (req_type request)) = Ok figure ->
  mediator (InputNameMappingRequest (req_type request) figure) = Ok name_mapping ->
  skipped_required_fields figure (get_skipped_fields figure name_mapping) = [] ->
  let outcome := (_provide_loader self mediator request w).1 in
  let extra_targets := get_extra_targets_at_crown figure name_mapping in
  let optional := optional_at_list figure name_mapping in
  (collect_without_extra figure name_mapping = true ->
     outcome
     = Raise (ValueError
                [Text "Cannot create loader that collect extra data if InputFigure does not take extra data"]))
  /\ (collect_without_extra figure name_mapping = false ->
      extra_targets <> [] ->
      outcome = Raise (ValueError [Text "Extra targets "; Names extra_targets;
                                   Text " are found at crown"]))
  /\ (collect_without_extra figure name_mapping = false ->
      extra_targets = [] ->
      optional <> [] ->
      outcome = Raise (ValueError [Text "Optional fields "; Names optional;
                                   Text " are found at list crown"])).
Proof.
  intros Hself Hfig Hmap Hreq. cbv zeta.
  pose proof (validate_cases figure name_mapping) as Hval. cbv zeta in Hval.
  rewrite Hreq in Hval. simpl in Hval.
  split; [|split].
  - intros Hc. rewrite Hc in Hval. by erewrite invalid_configuration_run.
  - intros Hc Hne%nonempty_true. rewrite Hc, Hne in Hval.
    by erewrite invalid_configuration_run.
  - intros Hc Hnil Hne%nonempty_true. rewrite Hc, Hnil, Hne in Hval.
    by erewrite invalid_configuration_run.
Qed.

(** X7: no exception of the mediator is caught while the shape and its
    mapping are fetched, CannotProvide included: the build ends with it
    having asked for the figure only, or for the figure and the name
    mapping, and with the heap as it was. *)
Theorem shape_request_failure_ends_build self mediator request w e :
  extraction_maker self = BuiltinInputExtractionMaker_call ->
  (mediator (InputFigureRequest (req_type request)) = Raise e ->
     _provide_loader self mediator request w
     = (Raise e, log (EvProvide (InputFigureRequest (req_type request))) w))
  /\ (forall figure,
        mediator (InputFigureRequest (req_type request)) = Ok figure ->
        mediator (InputNameMappingRequest (req_type request) figure) = Raise e ->
        _provide_loader self mediator request w
        = (Raise e, asked request figure w)).
Proof.
  intros Hself. split.
  - intros Hfig. apply _provide_loader_maker_fails. rewrite Hself.
    unfold BuiltinInputExtractionMaker_call, mbind, M_bind, provide.
    by rewrite Hfig.
  - intros figure Hfig Hmap. apply _provide_loader_maker_fails. rewrite Hself.
    unfold BuiltinInputExtractionMaker_call, mbind, M_bind, provide, asked.
    by rewrite Hfig, Hmap.
Qed.

(** *** The loaders of the fields, exactly *)

(** The dict the comprehension builds when the mediator answers
    [answers field] for every field. *)
Definition stored_loaders (answers : InputField -> Loader)
    (l : list InputField) (acc : gmap string Loader) : gmap string Loader :=
  foldl (fun m field => <[name field := answers field]> m) acc l.

Lemma world_eta w : {| heap := heap w; trace := trace w |} = w.
Proof. by destruct w. Qed.

Lemma provide_field_loaders_answered mediator request
    (answers : InputField -> Loader) (l : list InputField)
    (acc : gmap string Loader) w :
  (forall field, field ∈ l ->
                 mediator (field_request request field) = Ok (answers field)) ->
  provide_field_loaders mediator request l acc w
  = (Ok (stored_loaders answers l acc),
     {| heap := heap w;
        trace := (trace w ++ field_requests request l)%list |}).
Proof.
  revert acc w. induction l as [|field l IH]; intros acc w Hall; simpl.
  - by rewrite app_nil_r, world_eta.
  - unfold mbind, M_bind, provide.
    rewrite (Hall field) by by left.
    rewrite IH by (intros g Hg; apply Hall; by right).
    simpl. by rewrite <- app_assoc.
Qed.

Lemma provide_field_loaders_app mediator request (l1 l2 : list InputField)
    (acc : gmap string Loader) w :
  provide_field_loaders mediator request (l1 ++ l2)%list acc w
  = match provide_field_loaders mediator request l1 acc w with
    | (Ok field_loaders, w') =>
        provide_field_loaders mediator request l2 field_loaders w'
    | (Raise e, w') => (Raise e, w')
    end.
Proof.
  revert acc w. induction l1 as [|field l1 IH]; intros acc w; simpl; [done|].
  unfold mbind, M_bind, provide.
  destruct (mediator (field_request request field)) as [loader|e]; [|done].
  apply IH.
Qed.

(** X8: when the mediator fails the request for the loader of a field,
    the build ends with that exception, unchanged; the fields before it
    were asked for in order, the failing one last, no later field at
    all, and no object was created. *)
Theorem first_failing_field_ends_build
    self mediator request figure name_mapping processed
    (answers : InputField -> Loader) (pre post : list InputField)
    (field : InputField) e w :
  extraction_maker self = BuiltinInputExtractionMaker_call ->
  mediator (InputFigureRequest (req_type request)) = Ok figure ->
  mediator (InputNameMappingRequest (req_type request) figure) = Ok name_mapping ->
  validate figure name_mapping = Ok processed ->
  fields processed = (pre ++ field :: post)%list ->
  (forall g, g ∈ pre -> mediator (field_request request g) = Ok (answers g)) ->
  mediator (field_request request field) = Raise e ->
  _provide_loader self mediator request w
  = (Raise e,
     {| heap := heap w;
        trace := (trace w
                  ++ EvProvide (InputFigureRequest (req_type request))
                  :: EvProvide (InputNameMappingRequest (req_type request) figure)
                  :: field_requests request (pre ++ [field]))%list |}).
Proof.
  intros Hself Hfig Hmap Hval Hfields Hpre Hfield.
  apply _provide_loader_maker_fails.
  rewrite Hself, (BuiltinInputExtractionMaker_call_run _ _ _ _ _ Hfig Hmap), Hval.
  rewrite Hfields, provide_field_loaders_app.
  rewrite (provide_field_loaders_answered _ _ answers) by done.
  simpl. unfold mbind, M_bind, provide. rewrite Hfield. simpl.
  unfold field_requests, log. rewrite map_app. simpl.
  by rewrite <- !app_assoc.
Qed.

Lemma stored_loaders_snoc (answers : InputField -> Loader)
    (l : list InputField) (field : InputField) (acc : gmap string Loader) :
  stored_loaders answers (l ++ [field])%list acc
  = <[name field := answers field]> (stored_loaders answers l acc).
Proof. unfold stored_loaders. by rewrite foldl_app. Qed.

Lemma stored_loaders_lookup (answers : InputField -> Loader)
    (l : list InputField) (n : string) :
  stored_loaders answers l ∅ !! n
  = answers <$> last (filter (fun field => name field = n) l).
Proof.
  induction l as [|field l IH] using rev_ind; [done|].
  rewrite stored_loaders_snoc, filter_app.
  destruct (decide (name field = n)) as [Heq|Hne].
  - rewrite filter_cons_True, filter_nil by done.
    rewrite last_snoc, Heq. simpl. apply lookup_insert_eq.
  - rewrite filter_cons_False, filter_nil, app_nil_r by done.
    by rewrite lookup_insert_ne.
Qed.

(** X9: when the mediator answers for every field, one request is made
    per field, same-named fields included, and the loader kept under a
    name is the answer for the last field of that name; a name no field
    has holds no loader. *)
Theorem same_name_last_loader_wins mediator request
    (answers : InputField -> Loader) (l : list InputField) w :
  (forall field, field ∈ l ->
                 mediator (field_request request field) = Ok (answers field)) ->
  let run := provide_field_loaders mediator request l ∅ w in
  new_events w run.2 = field_requests request l
  /\ exists field_loaders,
      run.1 = Ok field_loaders
      /\ forall n,
          field_loaders !! n
          = answers <$> last (filter (fun field => name field = n) l).
Proof.
  intros Hall. cbv zeta.
  rewrite (provide_field_loaders_answered _ _ answers) by done. simpl.
  split; [by apply new_events_app|].
  eexists. split; [done|]. apply stored_loaders_lookup.
Qed.

(** *** A build from end to end *)

(** X10: when the configuration is valid, the mediator answers for every
    remaining field, the hook is provided or defaulted and both
    generators emit code, the build is the compiler's call: its outcome
    is what the compiler returns, success or failure, on the heap the
    generators left. The extraction generator is made from the shape as
    the mediator gave it, not the stripped one, and from the loaders of
    the remaining fields; the creation generator from the same shape.
    The mediator was asked for the figure, the mapping, each remaining
    field in order, then the hook. *)
Theorem answered_build_is_the_compiler_call
    self mediator request figure name_mapping processed
    (answers : InputField -> Loader) (hook : CodeGenHook) w
    (ecode ccode : CodeBuilder) (h1 h2 : gmap nat Obj) :
  extraction_maker self = BuiltinInputExtractionMaker_call ->
  creation_maker self = make_input_creation ->
  mediator (InputFigureRequest (req_type request)) = Ok figure ->
  mediator (InputNameMappingRequest (req_type request) figure) = Ok name_mapping ->
  validate figure name_mapping = Ok processed ->
  (forall field, field ∈ fields processed ->
                 mediator (field_request request field) = Ok (answers field)) ->
  resolved_hook (mediator CodeGenHookRequest) = Ok hook ->
  BuiltinInputExtractionGen figure (crown name_mapping) (debug_path request)
    (stored_loaders answers (fields processed) ∅)
    (binder_ref w) (namespace_ref w) (heap_with_objects w) = (Ok ecode, h1) ->
  BuiltinInputCreationGen figure (binder_ref w) (namespace_ref w) h1
  = (Ok ccode, h2) ->
  let args := args_of self request hook w ecode ccode in
  _provide_loader self mediator request w
  = ((compile_closure_with_globals_capturing args h2).1,
     {| heap := (compile_closure_with_globals_capturing args h2).2;
        trace :=
          (trace w
           ++ EvProvide (InputFigureRequest (req_type request))
           :: EvProvide (InputNameMappingRequest (req_type request) figure)
           :: field_requests request (fields processed)
           ++ [EvProvide CodeGenHookRequest;
               EvGenerate Extraction (binder_ref w) (namespace_ref w) (Ok ecode);
               EvGenerate Creation (binder_ref w) (namespace_ref w) (Ok ccode);
               EvCompile args])%list |}).
Proof.
  intros Hself Hcreate Hfig Hmap Hval Hall Hhook Hegen Hcgen. cbv zeta.
  set (w1 := {| heap := heap w;
                trace := (trace w
                          ++ EvProvide (InputFigureRequest (req_type request))
                          :: EvProvide (InputNameMappingRequest (req_type request) figure)
                          :: field_requests request (fields processed))%list |}).
  assert (extraction_maker self mediator request w
          = (Ok (_create_extraction_gen request figure name_mapping
                   (stored_loaders answers (fields processed) ∅), figure), w1))
    as Hmaker.
  { rewrite Hself, (BuiltinInputExtractionMaker_call_run _ _ _ _ _ Hfig Hmap), Hval.
    rewrite (provide_field_loaders_answered _ _ answers) by done.
    unfold w1, asked, log. simpl. by rewrite <- !app_assoc. }
  assert (creation_maker self mediator request figure w1
          = (Ok (BuiltinInputCreationGen figure), w1)) as Hcreation
      by by rewrite Hcreate.
  rewrite (_provide_loader_run _ _ _ _ _ _ _ _ _ Hmaker Hcreation), Hhook.
  rewrite synthesize_run. cbv zeta.
  change (heap_with_objects (log (EvProvide CodeGenHookRequest) w1))
    with (heap_with_objects w).
  change (binder_ref (log (EvProvide CodeGenHookRequest) w1)) with (binder_ref w).
  change (namespace_ref (log (EvProvide CodeGenHookRequest) w1))
    with (namespace_ref w).
  unfold _create_extraction_gen. rewrite Hegen, Hcgen.
  change (args_of self request hook (log (EvProvide CodeGenHookRequest) w1) ecode ccode)
    with (args_of self request hook w ecode ccode).
  f_equal. f_equal. unfold w1, log. simpl. by rewrite <- !app_assoc.
Qed.

(** X11: nothing that fails after the hook is resolved is caught or
    replaced. If the extraction generator raises, the build ends with
    that exception and the creation generator is never called; if the
    creation generator raises, the build ends with that exception and
    nothing is compiled; if the compiler raises, the build ends with
    that exception. *)
Theorem failure_after_hook_is_not_caught
    self mediator request w
    (extraction_gen creation_gen : CodeGenerator) figure w1 w2
    (hook : CodeGenHook) e :
  extraction_maker self mediator request w = (Ok (extraction_gen, figure), w1) ->
  creation_maker self mediator request figure w1 = (Ok creation_gen, w2) ->
  resolved_hook (mediator CodeGenHookRequest) = Ok hook ->
  let run := _provide_loader self mediator request w in
  let b := binder_ref w2 in
  let ns := namespace_ref w2 in
  (forall h1,
      extraction_gen b ns (heap_with_objects w2) = (Raise e, h1) ->
      run.1 = Raise e
      /\ new_events w2 run.2
         = [EvProvide CodeGenHookRequest; EvGenerate Extraction b ns (Raise e)])
  /\ (forall ecode h1 h2,
        extraction_gen b ns (heap_with_objects w2) = (Ok ecode, h1) ->
        creation_gen b ns h1 = (Raise e, h2) ->
        run.1 = Raise e
        /\ new_events w2 run.2
           = [EvProvide CodeGenHookRequest;
              EvGenerate Extraction b ns (Ok ecode);
              EvGenerate Creation b ns (Raise e)])
  /\ (forall ecode h1 ccode h2,
        extraction_gen b ns (heap_with_objects w2) = (Ok ecode, h1) ->
        creation_gen b ns h1 = (Ok ccode, h2) ->
        (compile_closure_with_globals_capturing
           (args_of self request hook w2 ecode ccode) h2).1 = Raise e ->
        run.1 = Raise e).
Proof.
  intros He Hc Hhook. cbv zeta.
  pose proof (_provide_loader_events _ _ _ _ _ _ _ _ _ He Hc) as Hrun.
  cbv zeta in Hrun. rewrite Hhook in Hrun.
  split; [|split].
  - intros h1 Hegen. by rewrite Hegen in Hrun.
  - intros ecode h1 h2 Hegen Hcgen. by rewrite Hegen, Hcgen in Hrun.
  - intros ecode h1 ccode h2 Hegen Hcgen Hcomp.
    rewrite Hegen, Hcgen in Hrun. destruct Hrun as [-> _]. done.
Qed.

(** *** What stripping keeps *)

(** X12: a figure that passes [_process_figure] comes out with its
    fields in their order, less those no leaf of the crown names; none
    of the dropped fields is required, every field kept is named by a
    leaf, and the extra-data policy is untouched. *)
Theorem processed_figure_keeps_mapped_fields figure name_mapping processed :
  _process_figure figure name_mapping = Ok processed ->
  fields processed
  = List.filter
      (fun field => bool_decide (name field ∈ crown_leaves (crown name_mapping)))
      (fields figure)
  /\ extra processed = extra figure
  /\ (forall field, field ∈ fields figure -> is_required field = true ->
                    field ∈ fields processed)
  /\ (forall field, field ∈ fields processed ->
                    has_leaf (name field) (crown name_mapping)).
Proof.
  unfold _process_figure.
  destruct (nonempty _) eqn:Hreq; [done|]. intros [= <-].
  apply nonempty_false in Hreq.
  assert (forall field, field ∈ fields figure ->
            (name field ∈ get_skipped_fields figure name_mapping
             <-> ~ name field ∈ crown_leaves (crown name_mapping))) as Hskip.
  { intros field Hin. rewrite elem_of_get_skipped_fields, elem_of_crown_leaves.
    split; [by intros [_ H]|]. intros H. split; [eauto|done]. }
  split; [|split; [done|split]].
  - simpl. apply filter_ext_in. intros field Hin%list_elem_of_In.
    specialize (Hskip _ Hin).
    destruct (bool_decide_reflect (name field ∈ get_skipped_fields figure name_mapping))
      as [Hs|Hs];
      destruct (bool_decide_reflect (name field ∈ crown_leaves (crown name_mapping)))
      as [Hl|Hl]; simpl; try done.
    + by apply Hskip in Hs.
    + exfalso. apply Hs. by apply Hskip.
  - intros field Hin Hr. apply elem_of_strip_figure. split; [done|].
    intros Hs.
    assert (name field
              ∈ skipped_required_fields figure (get_skipped_fields figure name_mapping))
      as Hoff.
    { apply elem_of_skipped_required_fields. exists field.
      apply elem_of_get_skipped_fields in Hs as [_ Hs]. done. }
    rewrite Hreq in Hoff. by apply elem_of_nil in Hoff.
  - intros field [Hin Hs]%elem_of_strip_figure.
    apply elem_of_crown_leaves.
    destruct (decide (name field ∈ crown_leaves (crown name_mapping))) as [|Hn];
      [done|].
    exfalso. apply Hs. by apply Hskip.
Qed.

(** *** The order of a build *)

(** The step of the build an event belongs to: asking for the shape,
    its mapping and the loaders of the fields (0), asking for the hook
    (1), extraction (2), creation (3), compilation (4). *)
Definition phase (ev : Event) : nat :=
  match ev with
  | EvProvide CodeGenHookRequest => 1
  | EvProvide _ => 0
  | EvGenerate Extraction _ _ _ => 2
  | EvGenerate Creation _ _ _ => 3
  | EvCompile _ => 4
  end.

Lemma field_requests_phase request (l : list InputField) :
  Forall (fun ev => phase ev = 0) (field_requests request l).
Proof. induction l; constructor; done. Qed.

(** The extraction maker only asks the mediator, and never for the
    hook; it creates nothing. *)
Lemma BuiltinInputExtractionMaker_call_asks_only mediator request w :
  let run := BuiltinInputExtractionMaker_call mediator request w in
  heap run.2 = heap w
  /\ exists asked_for,
      trace run.2 = (trace w ++ asked_for)%list
      /\ Forall (fun ev => phase ev = 0) asked_for.
Proof.
  cbv zeta.
  destruct (mediator (InputFigureRequest (req_type request))) as [figure|e] eqn:Hfig.
  2:{ unfold BuiltinInputExtractionMaker_call, mbind, M_bind, provide.
      rewrite Hfig. simpl. split; [done|]. eexists. split; [done|].
      by repeat constructor. }
  destruct (mediator (InputNameMappingRequest (req_type request) figure))
    as [name_mapping|e] eqn:Hmap.
  2:{ unfold BuiltinInputExtractionMaker_call, mbind, M_bind, provide.
      rewrite Hfig, Hmap. simpl. split; [done|].
      eexists. split; [by rewrite <- app_assoc|]. by repeat constructor. }
  rewrite (BuiltinInputExtractionMaker_call_run _ _ _ _ _ Hfig Hmap).
  destruct (validate figure name_mapping) as [processed|e].
  2:{ simpl. split; [done|]. eexists. split; [by rewrite <- app_assoc|].
      by repeat constructor. }
  destruct (provide_field_loaders_run mediator request (fields processed) ∅
              (asked request figure w)) as (Hheap & k & Htrace & _).
  destruct (provide_field_loaders _ _ _ _ _) as [[field_loaders|e] w'];
    simpl in *; (split; [done|]); eexists;
    (split; [by rewrite Htrace, <- !app_assoc|]);
    repeat constructor; apply field_requests_phase.
Qed.

(** X13: whatever the mediator, the generators and the compiler do, a
    build goes through its steps in one order and never back: first the
    requests for the shape, the mapping and the loaders of the fields,
    then at most once each and in this order the request for the hook,
    the extraction generator, the creation generator, the compiler.
    The mediator is never asked again once the hook request is made,
    and a build that returns a loader went through all four. *)
Theorem build_steps_are_ordered self mediator request w :
  extraction_maker self = BuiltinInputExtractionMaker_call ->
  creation_maker self = make_input_creation ->
  let run := _provide_loader self mediator request w in
  exists asked_for steps j,
    new_events w run.2 = (asked_for ++ steps)%list
    /\ Forall (fun ev => phase ev = 0) asked_for
    /\ List.map phase steps = seq 1 j
    /\ j <= 4
    /\ (is_ok run.1 = true -> j = 4).
Proof.
  intros Hself Hcreate. cbv zeta.
  destruct (BuiltinInputExtractionMaker_call_asks_only mediator request w)
    as (_ & asked_for & Htrace & Hphase).
  destruct (BuiltinInputExtractionMaker_call mediator request w)
    as [[[extraction_gen figure]|e] w1] eqn:Hmaker; simpl in Htrace.
  2:{ rewrite (_provide_loader_maker_fails self mediator request w e w1)
        by by rewrite Hself.
      exists asked_for, [], 0. simpl. rewrite app_nil_r.
      split; [by apply new_events_app|]. repeat split; [done|lia|done]. }
  assert (extraction_maker self mediator request w
          = (Ok (extraction_gen, figure), w1)) as He by by rewrite Hself.
  assert (creation_maker self mediator request figure w1
          = (Ok (BuiltinInputCreationGen figure), w1)) as Hc by by rewrite Hcreate.
  rewrite (_provide_loader_run _ _ _ _ _ _ _ _ _ He Hc).
  destruct (resolved_hook (mediator CodeGenHookRequest)) as [hook|e].
  2:{ exists asked_for, [EvProvide CodeGenHookRequest], 1. simpl.
      split; [apply new_events_app; simpl; by rewrite Htrace, <- app_assoc|].
      repeat split; [done|lia|done]. }
  rewrite synthesize_run. cbv zeta.
  destruct (extraction_gen _ _ _) as [[ecode|e] h1].
  2:{ eexists asked_for, [_; _], 2. simpl.
      split; [apply new_events_app; simpl; by rewrite Htrace, <- !app_assoc|].
      repeat split; [done|lia|done]. }
  destruct (BuiltinInputCreationGen _ _ _ _) as [[ccode|e] h2].
  2:{ eexists asked_for, [_; _; _], 3. simpl.
      split; [apply new_events_app; simpl; by rewrite Htrace, <- !app_assoc|].
      repeat split; [done|lia|done]. }
  eexists asked_for, [_; _; _; _], 4. simpl.
  split; [apply new_events_app; simpl; by rewrite Htrace, <- !app_assoc|].
  repeat split; [done|lia].
Qed.

(** *** Where the exceptions of a build come from *)


End Build.

Arguments NsLoader {Loader} loader.
Arguments NsObject {Loader} repr.
Arguments ObjVarBinder {Loader} binder.
Arguments ObjNamespace {Loader} ctx_namespace.
Arguments dict {Loader} _.
Arguments heap {Loader CodeBuilder CodeGenHook} _.
Arguments trace {Loader CodeBuilder CodeGenHook} _.
Arguments EvProvide {CodeBuilder CodeGenHook} request.
Arguments EvGenerate {CodeBuilder CodeGenHook} role binder ctx_namespace emitted.
Arguments EvCompile {CodeBuilder CodeGenHook} args.
Arguments compiler {CodeBuilder CodeGenHook} _.
Arguments code_gen_hook {CodeBuilder CodeGenHook} _.
Arguments binder {CodeBuilder CodeGenHook} _.
Arguments namespace {CodeBuilder CodeGenHook} _.
Arguments body_builders {CodeBuilder CodeGenHook} _.
Arguments closure_name {CodeBuilder CodeGenHook} _.
Arguments file_name {CodeBuilder CodeGenHook} _.
Arguments name_sanitizer {Loader CodeBuilder CodeGenHook} _.
Arguments extraction_maker {Loader CodeBuilder CodeGenHook} _.
Arguments creation_maker {Loader CodeBuilder CodeGenHook} _.

(** *** A build, run *)

(** Code is a list of lines; hooks are known by name; a loader is
    known by the name of its unit, its source and the names it
    captures. *)
Definition Code : Type := list string.

Record Closure : Type := {
  unit_name : string;
  source : Code;
  captured : list string;
}.

Definition TypeError : exn := OtherError "TypeError".

(** An extraction generator: it binds one variable per leaf of the
    crown and captures the loaders of the fields. *)
Definition extraction_gen_of (figure : InputFigure) (c : Crown)
    (debug_path : bool) (field_loaders : gmap string Closure)
  : CodeGenerator Closure Code :=
  fun binder ctx_namespace h =>
    match h !! binder, h !! ctx_namespace with
    | Some (ObjVarBinder vb), Some (ObjNamespace ns) =>
        (Ok (List.map (fun n => n ++ " = load_" ++ n ++ "(data)") (crown_leaves c)),
         <[binder := ObjVarBinder {| issued := (issued vb ++ crown_leaves c)%list |}]>
           (<[ctx_namespace :=
                ObjNamespace {| dict := (NsLoader <$> field_loaders) ∪ dict ns |}]> h))
    | _, _ => (Raise TypeError, h)
    end.

(** A creation generator: it builds the model from the variables the
    binder has issued. *)
Definition creation_gen_of (figure : InputFigure) : CodeGenerator Closure Code :=
  fun binder ctx_namespace h =>
    match h !! binder with
    | Some (ObjVarBinder vb) =>
        (Ok ["return Model(" ++ String.concat ", " (issued vb) ++ ")"], h)
    | _ => (Raise TypeError, h)
    end.

(** Modelled from the spec: [basic_gen.compile_closure_with_globals_capturing],
    not among the sources: "given a sequence of emitted fragments, the
    finished ContextNamespace, and a desired external name for the
    produced unit, synthesizes exactly one callable implementing
    extraction followed by creation". *)
Definition compile_closure (args : CompileArgs Code string)
    (h : gmap nat (Obj Closure)) : result Closure * gmap nat (Obj Closure) :=
  match h !! namespace args with
  | Some (ObjNamespace ns) =>
      (Ok {| unit_name := closure_name args;
             source := concat (body_builders args);
             captured := (map_to_list (dict ns)).*1 |}, h)
  | _ => (Raise TypeError, h)
  end.

Definition int : TypeHint := TpClass "int".
Definition str : TypeHint := TpClass "str".

(** The shape [a: int required, b: str optional, default empty]. *)
Definition field_a : InputField :=
  {| name := "a"; type := int; is_required := true; default := None |}.
Definition field_b : InputField :=
  {| name := "b"; type := str; is_required := false; default := Some "''" |}.
Definition figure_ab : InputFigure :=
  {| fields := [field_a; field_b]; extra := None |}.

Definition crown_ab : Crown := DictCrown [("a", Leaf "a"); ("b", Leaf "b")] None.
Definition crown_b : Crown := DictCrown [("b", Leaf "b")] None.
Definition crown_list : Crown := ListCrown [Leaf "a"; Leaf "b"] None.
Definition crown_nested : Crown :=
  DictCrown [("items", ListCrown [Leaf "a"] None); ("b", Leaf "b")] None.
Definition crown_extra : Crown :=
  DictCrown [("a", Leaf "a"); ("b", Leaf "b")] (Some "rest").

Definition loader_of (field : InputField) : Closure :=
  {| unit_name := "load_" ++ name field; source := []; captured := [] |}.

(** A mediator that knows the shape, maps it with [c], has a loader
    for every field and answers [hook] when asked for the hook. *)
Definition mediator_of (c : Crown) (hook : result string)
  : Mediator Closure string :=
  fun request =>
    match request as r return result (response Closure string r) with
    | InputFigureRequest _ => Ok figure_ab
    | InputNameMappingRequest _ _ => Ok {| crown := c |}
    | LoaderFieldRequest _ _ field _ => Ok (loader_of field)
    | CodeGenHookRequest => hook
    end.

Definition no_extra_targets (figure : InputFigure)
    (name_mapping : InputNameMapping) : list string := [].

Definition builtin_provider : ModelLoaderProvider Closure Code string :=
  {| name_sanitizer := fun n => n;
     extraction_maker :=
       BuiltinInputExtractionMaker_call Closure Code string
         no_extra_targets extraction_gen_of;
     creation_maker := make_input_creation Closure Code string creation_gen_of |}.

Definition request_model : LoaderRequest :=
  {| req_type := TpClass "Model"; strict_coercion := true; debug_path := false |}.

Definition empty_world : World Closure Code string :=
  {| heap := ∅; trace := [] |}.

Definition build (c : Crown) (hook : result string)
  : result Closure * World Closure Code string :=
  _provide_loader Closure Code string "stub_code_gen_hook" compile_closure
    builtin_provider (mediator_of c hook) request_model empty_world.

Definition no_hook : result string := Raise CannotProvide.

(** What the makers leave behind when the crown maps both fields. *)
Definition field_loaders_ab : gmap string Closure :=
  <["b" := loader_of field_b]> (<["a" := loader_of field_a]> ∅).

Definition extraction_gen_ab : CodeGenerator Closure Code :=
  extraction_gen_of figure_ab crown_ab false field_loaders_ab.

Definition world_after_makers : World Closure Code string :=
  {| heap := ∅;
     trace := [EvProvide (InputFigureRequest (TpClass "Model"));
               EvProvide (InputNameMappingRequest (TpClass "Model") figure_ab);
               EvProvide (field_request request_model field_a);
               EvProvide (field_request request_model field_b)] |}.

Example build_ab :
  (build crown_ab no_hook).1
  = Ok {| unit_name := "model_loader_Model";
          source := ["a = load_a(data)"; "b = load_b(data)"; "return Model(a, b)"];
          captured := ["a"; "b"] |}.
Proof. vm_compute. reflexivity. Qed.

Example build_without_a :
  (build crown_b no_hook).1
  = Raise (ValueError [Text "Required fields "; Names ["a"]; Text " are skipped"]).
Proof. vm_compute. reflexivity. Qed.

Example build_optional_at_list :
  (build crown_list no_hook).1
  = Raise (ValueError [Text "Optional fields "; Names ["b"];
                       Text " are found at list crown"]).
Proof. vm_compute. reflexivity. Qed.

Lemma skipped_required_fields_reported_witness :
  (build crown_b no_hook).1
  = Raise (ValueError [Text "Required fields "; Names ["a"]; Text " are skipped"])
  /\ _process_figure figure_ab {| crown := crown_ab |} = Ok figure_ab.
Proof.
  split.
  - apply (proj1 (proj2 (skipped_required_fields_reported
                           Closure Code string "stub_code_gen_hook"
                           no_extra_targets extraction_gen_of compile_closure
                           builtin_provider (mediator_of crown_b no_hook)
                           request_model figure_ab {| crown := crown_b |}
                           empty_world eq_refl eq_refl eq_refl))).
    vm_compute. discriminate.
  - apply (proj2 (proj2 (skipped_required_fields_reported
                           Closure Code string "stub_code_gen_hook"
                           no_extra_targets extraction_gen_of compile_closure
                           builtin_provider (mediator_of crown_ab no_hook)
                           request_model figure_ab {| crown := crown_ab |}
                           empty_world eq_refl eq_refl eq_refl))).
    vm_compute. reflexivity.
Defined.

Lemma validation_failure_aborts_build_witness :
  (exists msg, (build crown_list no_hook).1 = Raise (ValueError msg))
  /\ heap (build crown_list no_hook).2 = ∅
  /\ new_events Closure Code string empty_world (build crown_list no_hook).2
     = [EvProvide (InputFigureRequest (TpClass "Model"));
        EvProvide (InputNameMappingRequest (TpClass "Model") figure_ab)].
Proof.
  destruct (validation_failure_aborts_build
              Closure Code string "stub_code_gen_hook"
              no_extra_targets extraction_gen_of compile_closure
              builtin_provider (mediator_of crown_list no_hook)
              request_model figure_ab {| crown := crown_list |}
              empty_world eq_refl eq_refl eq_refl)
    as (Hmsg & Hheap & Hev & _).
  - right. right. right. vm_compute. discriminate.
  - split; [exact Hmsg|]. split; [exact Hheap|exact Hev].
Defined.

Lemma optional_fields_at_list_crown_reported_witness :
  (build crown_list no_hook).1
  = Raise (ValueError [Text "Optional fields "; Names ["b"];
                       Text " are found at list crown"])
  /\ (optional_at_list figure_ab {| crown := crown_nested |} = []
      /\ validate no_extra_targets figure_ab {| crown := crown_nested |}
         = Ok figure_ab).
Proof.
  split.
  - apply (proj1 (proj2 (optional_fields_at_list_crown_reported
                           Closure Code string "stub_code_gen_hook"
                           no_extra_targets extraction_gen_of compile_closure
                           builtin_provider (mediator_of crown_list no_hook)
                           request_model figure_ab {| crown := crown_list |}
                           empty_world eq_refl eq_refl eq_refl
                           ltac:(compute_done) eq_refl eq_refl eq_refl))).
    vm_compute. discriminate.
  - apply (proj2 (proj2 (optional_fields_at_list_crown_reported
                           Closure Code string "stub_code_gen_hook"
                           no_extra_targets extraction_gen_of compile_closure
                           builtin_provider (mediator_of crown_nested no_hook)
                           request_model figure_ab {| crown := crown_nested |}
                           empty_world eq_refl eq_refl eq_refl
                           ltac:(compute_done) eq_refl eq_refl eq_refl))).
    intros n field Hleaf Hfield Hname.
    assert (n = "a") as ->.
    { inversion Hleaf as [|? ? key c Hin Hc|]; subst.
      apply elem_of_cons in Hin as [Hin|Hin].
      - injection Hin as -> ->.
        inversion Hc as [? ? Hl| |? ? c' Hl Hc']; subst.
        + apply list_elem_of_singleton in Hl. by injection Hl.
        + apply list_elem_of_singleton in Hl as ->. inversion Hc'.
      - apply list_elem_of_singleton in Hin. injection Hin as -> ->.
        inversion Hc. }
    apply elem_of_cons in Hfield as [->|Hfield]; [reflexivity|].
    apply list_elem_of_singleton in Hfield as ->. discriminate Hname.
Defined.

Lemma collect_policy_needs_extra_witness :
  (build crown_extra no_hook).1
  = Raise (ValueError
             [Text "Cannot create loader that collect extra data if InputFigure does not take extra data"]).
Proof.
  apply (proj1 (collect_policy_needs_extra
                  Closure Code string "stub_code_gen_hook"
                  no_extra_targets extraction_gen_of compile_closure
                  builtin_provider (mediator_of crown_extra no_hook)
                  request_model figure_ab {| crown := crown_extra |}
                  empty_world eq_refl eq_refl eq_refl eq_refl) eq_refl).
  vm_compute. reflexivity.
Defined.

Lemma field_loaders_requested_witness :
  exists field_loaders,
    (BuiltinInputExtractionMaker_call Closure Code string
       no_extra_targets extraction_gen_of
       (mediator_of crown_ab no_hook) request_model empty_world).1
    = Ok (_create_extraction_gen Closure Code extraction_gen_of request_model
            figure_ab {| crown := crown_ab |} field_loaders, figure_ab)
    /\ dom field_loaders = list_to_set (List.map name (fields figure_ab))
    /\ (forall n loader,
           field_loaders !! n = Some loader ->
           exists field, field ∈ fields figure_ab /\ name field = n
             /\ mediator_of crown_ab no_hook (field_request request_model field)
                = Ok loader).
Proof.
  apply (proj2 (proj2 (proj2 (field_loaders_requested
                                Closure Code string
                                no_extra_targets extraction_gen_of
                                (mediator_of crown_ab no_hook) request_model
                                figure_ab {| crown := crown_ab |} figure_ab
                                empty_world eq_refl eq_refl eq_refl)))).
  intros field _. reflexivity.
Defined.

Lemma generators_share_binder_and_namespace_witness :
  exists args,
    EvCompile args
      ∈ new_events Closure Code string world_after_makers
          (build crown_ab no_hook).2
    /\ body_builders args
       = [["a = load_a(data)"; "b = load_b(data)"]; ["return Model(a, b)"]]
    /\ binder args <> namespace args.
Proof.
  destruct (generators_share_binder_and_namespace
              Closure Code string "stub_code_gen_hook" compile_closure
              builtin_provider (mediator_of crown_ab no_hook) request_model
              empty_world extraction_gen_ab (creation_gen_of figure_ab)
              figure_ab world_after_makers world_after_makers
              eq_refl eq_refl)
    as (_ & (_ & _ & Hne) & Hcompile & Hloader).
  destruct (Hloader _ eq_refl) as [args Hin].
  destruct (Hcompile args Hin)
    as (ecode & ccode & h1 & h2 & He & Hc & Hbody & Hb & Hn & _).
  exists args. split; [exact Hin|]. split.
  - etrans; [exact Hbody|]. vm_compute in He.
    injection He as <- <-. vm_compute in Hc. injection Hc as <- _. reflexivity.
  - intros Heq. apply Hne. etrans; [symmetry; exact Hb|]. etrans; [exact Heq|exact Hn].
Defined.

Lemma code_gen_hook_default_witness :
  build crown_ab no_hook
  = synthesize Closure Code string compile_closure builtin_provider request_model
      extraction_gen_ab (creation_gen_of figure_ab) "stub_code_gen_hook"
      (log Closure Code string (EvProvide CodeGenHookRequest) world_after_makers)
  /\ build crown_ab (Ok "print_source")
     = synthesize Closure Code string compile_closure builtin_provider request_model
         extraction_gen_ab (creation_gen_of figure_ab) "print_source"
         (log Closure Code string (EvProvide CodeGenHookRequest) world_after_makers)
  /\ build crown_ab (Raise (OtherError "RuntimeError"))
     = (Raise (OtherError "RuntimeError"),
        log Closure Code string (EvProvide CodeGenHookRequest) world_after_makers).
Proof.
  split; [|split].
  - apply (proj1 (code_gen_hook_default
                    Closure Code string "stub_code_gen_hook" compile_closure
                    builtin_provider (mediator_of crown_ab no_hook) request_model
                    empty_world extraction_gen_ab (creation_gen_of figure_ab)
                    figure_ab world_after_makers world_after_makers
                    eq_refl eq_refl)).
    reflexivity.
  - apply (proj1 (proj2 (code_gen_hook_default
                    Closure Code string "stub_code_gen_hook" compile_closure
                    builtin_provider (mediator_of crown_ab (Ok "print_source"))
                    request_model
                    empty_world extraction_gen_ab (creation_gen_of figure_ab)
                    figure_ab world_after_makers world_after_makers
                    eq_refl eq_refl))).
    reflexivity.
  - apply (proj2 (proj2 (code_gen_hook_default
                    Closure Code string "stub_code_gen_hook" compile_closure
                    builtin_provider
                    (mediator_of crown_ab (Raise (OtherError "RuntimeError")))
                    request_model
                    empty_world extraction_gen_ab (creation_gen_of figure_ab)
                    figure_ab world_after_makers world_after_makers
                    eq_refl eq_refl))).
    + reflexivity.
    + discriminate.
Defined.

(** *** More builds, run *)

(** A provider whose scan reports the field "rest" as an extra target
    found at the crown, and one whose extraction generator fails. *)
Definition rest_at_crown (figure : InputFigure)
    (name_mapping : InputNameMapping) : list string := ["rest"].

Definition provider_with_targets : ModelLoaderProvider Closure Code string :=
  {| name_sanitizer := fun n => n;
     extraction_maker :=
       BuiltinInputExtractionMaker_call Closure Code string
         rest_at_crown extraction_gen_of;
     creation_maker := make_input_creation Closure Code string creation_gen_of |}.

Definition failing_gen_of (figure : InputFigure) (c : Crown)
    (debug_path : bool) (field_loaders : gmap string Closure)
  : CodeGenerator Closure Code :=
  fun binder ctx_namespace h => (Raise (OtherError "KeyError"), h).

Definition provider_with_failing_gen : ModelLoaderProvider Closure Code string :=
  {| name_sanitizer := fun n => n;
     extraction_maker :=
       BuiltinInputExtractionMaker_call Closure Code string
         no_extra_targets failing_gen_of;
     creation_maker := make_input_creation Closure Code string creation_gen_of |}.

(** Mediators that fail: one knows nothing, one knows the shape only,
    one has no loader for [str] fields. *)
Definition mediator_knowing_nothing : Mediator Closure string :=
  fun request =>
    match request as r return result (response Closure string r) with
    | InputFigureRequest _ => Raise CannotProvide
    | InputNameMappingRequest _ _ => Raise CannotProvide
    | LoaderFieldRequest _ _ _ _ => Raise CannotProvide
    | CodeGenHookRequest => Raise CannotProvide
    end.

Definition mediator_knowing_shape : Mediator Closure string :=
  fun request =>
    match request as r return result (response Closure string r) with
    | InputFigureRequest _ => Ok figure_ab
    | InputNameMappingRequest _ _ => Raise CannotProvide
    | LoaderFieldRequest _ _ _ _ => Raise CannotProvide
    | CodeGenHookRequest => Raise CannotProvide
    end.

Definition no_str_loader : exn := NoSuitableProvider "cannot provide loader for str".

Definition mediator_without_str : Mediator Closure string :=
  fun request =>
    match request as r return result (response Closure string r) with
    | InputFigureRequest _ => Ok figure_ab
    | InputNameMappingRequest _ _ => Ok {| crown := crown_ab |}
    | LoaderFieldRequest _ _ field (TpClass "str") => Raise no_str_loader
    | LoaderFieldRequest _ _ field _ => Ok (loader_of field)
    | CodeGenHookRequest => Raise CannotProvide
    end.

(** Loaders told apart by the type they load. *)
Definition loader_by_type (field : InputField) : Closure :=
  {| unit_name := "load_" ++ type_name (type field); source := []; captured := [] |}.

Definition mediator_by_type : Mediator Closure string :=
  fun request =>
    match request as r return result (response Closure string r) with
    | InputFigureRequest _ => Ok figure_ab
    | InputNameMappingRequest _ _ => Ok {| crown := crown_ab |}
    | LoaderFieldRequest _ _ field _ => Ok (loader_by_type field)
    | CodeGenHookRequest => Raise CannotProvide
    end.

Definition field_a_again : InputField :=
  {| name := "a"; type := str; is_required := true; default := None |}.

Definition crown_a : Crown := DictCrown [("a", Leaf "a")] None.

Definition build_with (self : ModelLoaderProvider Closure Code string)
    (mediator : Mediator Closure string)
  : result Closure * World Closure Code string :=
  _provide_loader Closure Code string "stub_code_gen_hook" compile_closure
    self mediator request_model empty_world.

Lemma first_failed_check_is_reported_witness :
  (build_with provider_with_targets (mediator_of crown_extra no_hook)).1
  = Raise (ValueError
             [Text "Cannot create loader that collect extra data if InputFigure does not take extra data"])
  /\ (build_with provider_with_targets (mediator_of crown_list no_hook)).1
     = Raise (ValueError [Text "Extra targets "; Names ["rest"];
                          Text " are found at crown"])
  /\ (build_with builtin_provider (mediator_of crown_list no_hook)).1
     = Raise (ValueError [Text "Optional fields "; Names ["b"];
                          Text " are found at list crown"]).
Proof.
  split; [|split].
  - apply (proj1 (first_failed_check_is_reported
                    Closure Code string "stub_code_gen_hook"
                    rest_at_crown extraction_gen_of compile_closure
                    provider_with_targets (mediator_of crown_extra no_hook)
                    request_model figure_ab {| crown := crown_extra |}
                    empty_world eq_refl eq_refl eq_refl eq_refl)).
    reflexivity.
  - apply (proj1 (proj2 (first_failed_check_is_reported
                    Closure Code string "stub_code_gen_hook"
                    rest_at_crown extraction_gen_of compile_closure
                    provider_with_targets (mediator_of crown_list no_hook)
                    request_model figure_ab {| crown := crown_list |}
                    empty_world eq_refl eq_refl eq_refl eq_refl))).
    + reflexivity.
    + discriminate.
  - apply (proj2 (proj2 (first_failed_check_is_reported
                    Closure Code string "stub_code_gen_hook"
                    no_extra_targets extraction_gen_of compile_closure
                    builtin_provider (mediator_of crown_list no_hook)
                    request_model figure_ab {| crown := crown_list |}
                    empty_world eq_refl eq_refl eq_refl eq_refl))).
    + reflexivity.
    + reflexivity.
    + vm_compute. discriminate.
Defined.

Lemma shape_request_failure_ends_build_witness :
  build_with builtin_provider mediator_knowing_nothing
  = (Raise CannotProvide,
     log Closure Code string (EvProvide (InputFigureRequest (TpClass "Model")))
       empty_world)
  /\ build_with builtin_provider mediator_knowing_shape
     = (Raise CannotProvide, asked Closure Code string request_model figure_ab empty_world).
Proof.
  split.
  - apply (proj1 (shape_request_failure_ends_build
                    Closure Code string "stub_code_gen_hook"
                    no_extra_targets extraction_gen_of compile_closure
                    builtin_provider mediator_knowing_nothing request_model
                    empty_world CannotProvide eq_refl)).
    reflexivity.
  - apply (proj2 (shape_request_failure_ends_build
                    Closure Code string "stub_code_gen_hook"
                    no_extra_targets extraction_gen_of compile_closure
                    builtin_provider mediator_knowing_shape request_model
                    empty_world CannotProvide eq_refl) figure_ab).
    + reflexivity.
    + reflexivity.
Defined.

Lemma first_failing_field_ends_build_witness :
  build_with builtin_provider mediator_without_str
  = (Raise no_str_loader,
     {| heap := ∅;
        trace := [EvProvide (InputFigureRequest (TpClass "Model"));
                  EvProvide (InputNameMappingRequest (TpClass "Model") figure_ab);
                  EvProvide (field_request request_model field_a);
                  EvProvide (field_request request_model field_b)] |}).
Proof.
  apply (first_failing_field_ends_build
           Closure Code string "stub_code_gen_hook"
           no_extra_targets extraction_gen_of compile_closure
           builtin_provider mediator_without_str request_model
           figure_ab {| crown := crown_ab |} figure_ab loader_of
           [field_a] [] field_b no_str_loader empty_world
           eq_refl eq_refl eq_refl eq_refl eq_refl).
  - intros g Hg. apply list_elem_of_singleton in Hg as ->. reflexivity.
  - reflexivity.
Defined.

Lemma same_name_last_loader_wins_witness :
  exists field_loaders,
    (provide_field_loaders Closure Code string mediator_by_type request_model
       [field_a; field_b; field_a_again] ∅ empty_world).1 = Ok field_loaders
    /\ field_loaders !! "a" = Some (loader_by_type field_a_again)
    /\ field_loaders !! "c" = None.
Proof.
  destruct (same_name_last_loader_wins Closure Code string mediator_by_type
              request_model loader_by_type [field_a; field_b; field_a_again]
              empty_world (fun field _ => eq_refl))
    as (_ & field_loaders & Hrun & Hlookup).
  exists field_loaders. split; [exact Hrun|]. split.
  - etrans; [apply Hlookup|]. reflexivity.
  - etrans; [apply Hlookup|]. reflexivity.
Defined.

Lemma failure_after_hook_is_not_caught_witness :
  (build_with provider_with_failing_gen (mediator_of crown_ab no_hook)).1
  = Raise (OtherError "KeyError")
  /\ new_events Closure Code string world_after_makers
       (build_with provider_with_failing_gen (mediator_of crown_ab no_hook)).2
     = [EvProvide CodeGenHookRequest;
        EvGenerate Extraction 0 1 (Raise (OtherError "KeyError"))].
Proof.
  apply (proj1 (failure_after_hook_is_not_caught
                  Closure Code string "stub_code_gen_hook" compile_closure
                  provider_with_failing_gen (mediator_of crown_ab no_hook)
                  request_model empty_world
                  (failing_gen_of figure_ab crown_ab false field_loaders_ab)
                  (creation_gen_of figure_ab) figure_ab
                  world_after_makers world_after_makers
                  "stub_code_gen_hook" (OtherError "KeyError")
                  eq_refl eq_refl eq_refl)
           (heap_with_objects Closure Code string world_after_makers)).
  reflexivity.
Defined.

Lemma processed_figure_keeps_mapped_fields_witness :
  fields {| fields := [field_a]; extra := None |}
  = List.filter
      (fun field => bool_decide (name field ∈ crown_leaves crown_a))
      (fields figure_ab)
  /\ has_leaf "a" crown_a.
Proof.
  destruct (processed_figure_keeps_mapped_fields figure_ab {| crown := crown_a |}
              {| fields := [field_a]; extra := None |} eq_refl)
    as (Hfields & _ & _ & Hleaf).
  split; [exact Hfields|].
  apply (Hleaf field_a). by left.
Defined.

(** The heap once both generators have run on the two new objects. *)
Definition heap_after_generation : gmap nat (Obj Closure) :=
  (extraction_gen_ab 0 1 (heap_with_objects Closure Code string empty_world)).2.

Lemma answered_build_is_the_compiler_call_witness :
  (build crown_ab (Ok "print_source")).1
  = (compile_closure
       (args_of Closure Code string builtin_provider request_model "print_source"
          empty_world ["a = load_a(data)"; "b = load_b(data)"]
          ["return Model(a, b)"])
       heap_after_generation).1.
Proof.
  apply (f_equal fst
           (answered_build_is_the_compiler_call
              Closure Code string "stub_code_gen_hook"
              no_extra_targets extraction_gen_of creation_gen_of compile_closure
              builtin_provider (mediator_of crown_ab (Ok "print_source"))
              request_model figure_ab {| crown := crown_ab |} figure_ab
              loader_of "print_source" empty_world
              ["a = load_a(data)"; "b = load_b(data)"] ["return Model(a, b)"]
              heap_after_generation heap_after_generation
              eq_refl eq_refl eq_refl eq_refl eq_refl
              (fun field _ => eq_refl) eq_refl eq_refl eq_refl)).
Defined.

Example build_ab_steps :
  List.map (phase Code string)
    (new_events Closure Code string empty_world (build crown_ab no_hook).2)
  = [0; 0; 0; 0; 1; 2; 3; 4].
Proof. vm_compute. reflexivity. Qed.

Lemma build_steps_are_ordered_witness :
  exists asked_for steps j,
    new_events Closure Code string empty_world (build crown_ab no_hook).2
    = (asked_for ++ steps)%list
    /\ Forall (fun ev => phase Code string ev = 0) asked_for
    /\ List.map (phase Code string) steps = seq 1 j
    /\ j <= 4
    /\ (is_ok (build crown_ab no_hook).1 = true -> j = 4).
Proof.
  exact (build_steps_are_ordered
           Closure Code string "stub_code_gen_hook"
           no_extra_targets extraction_gen_of creation_gen_of compile_closure
           builtin_provider (mediator_of crown_ab no_hook) request_model
           empty_world eq_refl eq_refl).
Defined.


End ModelLoader.
